(** * SafeAgents: the client factory and the model wrapper

    A shallow embedding of

      - [safeagents/core/src/frameworks/client_factory.py]  (class [ClientFactory])
      - [safeagents/core/src/clients/model_client.py]       (classes [ModelConfig], [Model])

    The Python code is a thin translation layer in front of three vendor
    SDKs.  Python objects live in a heap indexed by locations, so that object
    identity ("the very same handle") can be told apart from equality of
    contents; the process-wide registry of the [agents] package and
    [os.environ] are fields of the program state; exceptions are values of an
    error monad that keeps the state reached when the exception was raised. *)

From Stdlib Require Import SpecFloat.
From stdpp Require Import base option list strings gmap.

Set Warnings "-register-all".

Local Open Scope string_scope.

(** ** Python values *)

(** Heap locations: the identity of a Python object. *)
Definition loc := nat.

(** The values that flow through the factory.  A temperature is an IEEE
    double and is only ever forwarded; token providers and tools are opaque
    callables; a client handle is a reference into the heap. *)
Inductive pyval : Type :=
| PyNone
| PyBool (b : bool)
| PyStr (s : string)
| PyFloat (f : spec_float)
| PyDict (items : list (string * pyval))
| PyCallable (name : string)
| PyRef (l : loc).

(** A [Dict[str, Any]], also the shape of a [**kwargs] call. *)
Abbreviation kwargs := (gmap string pyval).

(** An exception: its class, its message and its [__cause__]. *)
Inductive exn : Type :=
| MkExn (cls : string) (msg : string) (cause : option exn).

Definition exc_class (e : exn) : string := let (c, _, _) := e in c.
Definition exc_msg (e : exn) : string := let (_, m, _) := e in m.
Definition exc_cause (e : exn) : option exn := let (_, _, c) := e in c.

Definition ValueError (msg : string) : exn := MkExn "ValueError" msg None.
Definition KeyError (key : string) : exn := MkExn "KeyError" key None.
Definition TypeError (msg : string) : exn := MkExn "TypeError" msg None.
Definition AttributeError (msg : string) : exn := MkExn "AttributeError" msg None.

(** ** The vendor SDKs, at their interface boundary *)

(** The three client classes the factory instantiates. *)
Inductive client_class : Type :=
| AzureOpenAIChatCompletionClient   (* autogen_ext.models.openai *)
| AzureChatOpenAI                   (* langchain_openai.chat_models *)
| AsyncAzureOpenAI.                 (* openai *)

Definition class_name (c : client_class) : string :=
  match c with
  | AzureOpenAIChatCompletionClient => "AzureOpenAIChatCompletionClient"
  | AzureChatOpenAI => "AzureChatOpenAI"
  | AsyncAzureOpenAI => "AsyncAzureOpenAI"
  end.

(** Heap objects.  A client remembers the class it was built from and the
    keyword arguments its constructor received.  A binding is what
    [bind_tools] of a LangChain chat model returns: a new runnable around
    the model, carrying the tools and the parallel-call flag. *)
Inductive obj : Type :=
| Client (cls : client_class) (kw : kwargs)
| Binding (bound : loc) (tools : list pyval) (parallel_tool_calls : bool).

(** The process-wide configuration of the [agents] package, as written by
    [set_default_openai_api], [set_default_openai_client] (the client and
    its [use_for_tracing] argument) and [set_tracing_disabled]. *)
Record agents_config : Type := mkAgents {
  default_openai_api : string;
  default_openai_client : option (pyval * bool);
  tracing_disabled : bool
}.

(** The program state the factory can reach. *)
Record state : Type := mkState {
  heap : list obj;
  agents : agents_config;
  environ : gmap string string
}.

(** What the code cannot decide: whether a vendor constructor accepts its
    keyword arguments.  [sdk_init c env kw] is [Some e] when calling [c] with
    keyword arguments [kw] raises [e] (the constructors may consult the
    environment, which they only read), and [None] when it returns an
    instance.
    [sdk_convert_tools kw tools] does the same for the tool conversion
    inside [AzureChatOpenAI.bind_tools]. *)
Record SDK : Type := mkSDK {
  sdk_init : client_class -> gmap string string -> kwargs -> option exn;
  sdk_convert_tools : kwargs -> list pyval -> option exn
}.

(** ** Error-and-state monad *)

Inductive result (A : Type) : Type :=
| Ok (a : A)
| Raise (e : exn).
Arguments Ok {A} a.
Arguments Raise {A} e.

Definition M (A : Type) : Type := state -> result A * state.

Definition ret {A} (a : A) : M A := fun st => (Ok a, st).
Definition raise {A} (e : exn) : M A := fun st => (Raise e, st).
Definition bind {A B} (m : M A) (k : A -> M B) : M B :=
  fun st => match m st with
            | (Ok a, st') => k a st'
            | (Raise e, st') => (Raise e, st')
            end.

Declare Scope py_scope.
Delimit Scope py_scope with py.
Notation "x <- m ;; k" := (bind m (fun x => k))
  (at level 100, m at next level, right associativity) : py_scope.
Notation "m ;; k" := (bind m (fun _ => k))
  (at level 100, right associativity) : py_scope.
Local Open Scope py_scope.

(** ** Python primitives used by the code *)

(** [type(v).__name__] *)
Definition type_name (h : list obj) (v : pyval) : string :=
  match v with
  | PyNone => "NoneType"
  | PyBool _ => "bool"
  | PyStr _ => "str"
  | PyFloat _ => "float"
  | PyDict _ => "dict"
  | PyCallable _ => "function"
  | PyRef l => match h !! l with
               | Some (Client c _) => class_name c
               | Some (Binding _ _ _) => "RunnableBinding"
               | None => "object"
               end
  end.

(** [d[k]]: the value, or [KeyError(k)]. *)
Definition getitem (d : kwargs) (k : string) : M pyval :=
  match d !! k with
  | Some v => ret v
  | None => raise (KeyError k)
  end.

(** Calling [cls] with keyword arguments [kw]: either the constructor raises
    and nothing is allocated, or a fresh object is allocated and its
    reference returned. *)
Definition construct (sdk : SDK) (cls : client_class) (kw : kwargs) : M pyval :=
  fun st =>
    match sdk_init sdk cls (environ st) kw with
    | Some e => (Raise e, st)
    | None => (Ok (PyRef (length (heap st))),
               mkState (heap st ++ [Client cls kw]) (agents st) (environ st))
    end.

Fixpoint has_nul (s : string) : bool :=
  match s with
  | EmptyString => false
  | String a s' => if Ascii.eqb a Ascii.zero then true else has_nul s'
  end.

(** [os.environ[k] = v] on POSIX: the value must be a [str] ([TypeError]
    otherwise) without an embedded NUL ([ValueError] otherwise). *)
Definition environ_setitem (k : string) (v : pyval) : M unit :=
  fun st =>
    match v with
    | PyStr s =>
        if has_nul s
        then (Raise (ValueError "embedded null byte"), st)
        else (Ok tt, mkState (heap st) (agents st) (<[k := s]> (environ st)))
    | _ => (Raise (TypeError ("str expected, not " +:+ type_name (heap st) v)), st)
    end.

(** The three setters of the [agents] package. *)
Definition set_default_openai_api (api : string) : M unit :=
  fun st =>
    (Ok tt, mkState (heap st)
              (mkAgents api (default_openai_client (agents st))
                 (tracing_disabled (agents st)))
              (environ st)).

Definition set_default_openai_client (client : pyval) (use_for_tracing : bool) : M unit :=
  fun st =>
    (Ok tt, mkState (heap st)
              (mkAgents (default_openai_api (agents st))
                 (Some (client, use_for_tracing))
                 (tracing_disabled (agents st)))
              (environ st)).

Definition set_tracing_disabled (disabled : bool) : M unit :=
  fun st =>
    (Ok tt, mkState (heap st)
              (mkAgents (default_openai_api (agents st))
                 (default_openai_client (agents st))
                 disabled)
              (environ st)).

(** [client.bind_tools(tools, parallel_tool_calls=p)].  Only a LangChain chat
    model has the method (a binding forwards the attribute to the model it
    wraps); on anything else the attribute lookup fails. *)
Definition no_bind_tools (h : list obj) (v : pyval) : exn :=
  AttributeError ("'" +:+ type_name h v +:+ "' object has no attribute 'bind_tools'").

Definition chat_model_of (h : list obj) (v : pyval) : option (loc * kwargs) :=
  match v with
  | PyRef l =>
      match h !! l with
      | Some (Client AzureChatOpenAI kw) => Some (l, kw)
      | Some (Binding b _ _) =>
          match h !! b with
          | Some (Client AzureChatOpenAI kw) => Some (b, kw)
          | _ => None
          end
      | _ => None
      end
  | _ => None
  end.

Definition bind_tools (sdk : SDK) (client : pyval) (tools : list pyval)
    (parallel_tool_calls : bool) : M pyval :=
  fun st =>
    match chat_model_of (heap st) client with
    | None => (Raise (no_bind_tools (heap st) client), st)
    | Some (l, kw) =>
        match sdk_convert_tools sdk kw tools with
        | Some e => (Raise e, st)
        | None => (Ok (PyRef (length (heap st))),
                   mkState (heap st ++ [Binding l tools parallel_tool_calls])
                     (agents st) (environ st))
        end
    end.

(** [{k1: v1, ..., kn: vn}]: entries are stored left to right, a later entry
    for the same key replacing an earlier one. *)
Definition dict (items : list (string * pyval)) : kwargs :=
  foldl (fun d kv => <[kv.1 := kv.2]> d) ∅ items.

(** ** framework_types *)

(** Modelled from the spec: the [Framework] enumeration, whose module
    [framework_types] is imported by [client_factory.py] but is not among
    the sources.  The spec gives a closed set of three members.  [OTHER]
    stands for any other value a caller can pass in the [framework]
    position, one that compares unequal to the three members; [repr] is
    what an f-string renders it as. *)
Inductive Framework : Type :=
| AUTOGEN
| LANGGRAPH
| OPENAI_AGENTS
| OTHER (repr : string).

(** ** client_factory.py *)

Module ClientFactory.

(** The dictionary literals of the two routines that rename keys, as
    functions of the values read from [llm_config]. *)
Definition langgraph_config (name temperature azure_deployment azure_endpoint
    api_version azure_ad_token_provider : pyval) : kwargs :=
  dict [ ("name", name);
         ("temperature", temperature);
         ("azure_deployment", azure_deployment);
         ("azure_endpoint", azure_endpoint);
         ("api_version", api_version);
         ("azure_ad_token_provider", azure_ad_token_provider) ].

Definition openai_agents_config (azure_endpoint azure_ad_token_provider
    api_version : pyval) : kwargs :=
  dict [ ("azure_endpoint", azure_endpoint);
         ("azure_ad_token_provider", azure_ad_token_provider);
         ("api_version", api_version) ].

Section WithSDK.
Variable sdk : SDK.

(** [_create_autogen_client]: the dictionary is splatted into the
    constructor as it is. *)
Definition _create_autogen_client (llm_config : kwargs) : M pyval :=
  construct sdk AzureOpenAIChatCompletionClient llm_config.

(** [_create_langgraph_client]: six subscripts, evaluated in the order of
    the dictionary literal (the first missing key raises [KeyError]), then
    the constructor. *)
Definition _create_langgraph_client (llm_config : kwargs) : M pyval :=
  name <- getitem llm_config "model" ;;
  temperature <- getitem llm_config "temperature" ;;
  azure_deployment <- getitem llm_config "azure_deployment" ;;
  azure_endpoint <- getitem llm_config "azure_endpoint" ;;
  api_version <- getitem llm_config "api_version" ;;
  azure_ad_token_provider <- getitem llm_config "azure_ad_token_provider" ;;
  construct sdk AzureChatOpenAI
    (langgraph_config name temperature azure_deployment azure_endpoint
       api_version azure_ad_token_provider).

(** [_create_openai_agents_client]: three subscripts, the constructor, the
    three setters of [agents], then the three assignments to [os.environ],
    the last two of which read the configuration again. *)
Definition _create_openai_agents_client (llm_config : kwargs) : M pyval :=
  azure_endpoint <- getitem llm_config "azure_endpoint" ;;
  azure_ad_token_provider <- getitem llm_config "azure_ad_token_provider" ;;
  api_version <- getitem llm_config "api_version" ;;
  client <- construct sdk AsyncAzureOpenAI
              (openai_agents_config azure_endpoint azure_ad_token_provider
                 api_version) ;;
  set_default_openai_api "chat_completions" ;;
  set_default_openai_client client false ;;
  set_tracing_disabled true ;;
  environ_setitem "OPENAI_API_TYPE" (PyStr "azure") ;;
  v_endpoint <- getitem llm_config "azure_endpoint" ;;
  environ_setitem "OPENAI_API_BASE" v_endpoint ;;
  v_version <- getitem llm_config "api_version" ;;
  environ_setitem "OPENAI_API_VERSION" v_version ;;
  ret client.

(** [create_client]: an [if]/[elif] chain over the three members, and a
    [ValueError] in the [else] branch. *)
Definition create_client (framework : Framework) (llm_config : kwargs) : M pyval :=
  match framework with
  | AUTOGEN => _create_autogen_client llm_config
  | LANGGRAPH => _create_langgraph_client llm_config
  | OPENAI_AGENTS => _create_openai_agents_client llm_config
  | OTHER repr => raise (ValueError ("Unsupported framework: " +:+ repr))
  end.

(** [bind_tools_for_framework]: only LangGraph touches the client; the
    other branches, the [else] among them, return it.  The Python default
    [parallel_tool_calls=True] is the caller's to supply here. *)
Definition bind_tools_for_framework (client : pyval) (framework : Framework)
    (tools : list pyval) (parallel_tool_calls : bool) : M pyval :=
  match framework with
  | LANGGRAPH => bind_tools sdk client tools parallel_tool_calls
  | AUTOGEN => ret client
  | OPENAI_AGENTS => ret client
  | OTHER _ => ret client
  end.

End WithSDK.
End ClientFactory.

(** ** model_client.py *)

(** The class attributes of [ModelConfig] are the defaults of its
    instances: every field reads as [None] until assigned, the temperature
    as [0.0]. *)
Record ModelConfig : Type := mkModelConfig {
  azure_endpoint : pyval;
  azure_deployment : pyval;
  azure_model_name : pyval;
  azure_api_version : pyval;
  azure_token_provider : pyval;
  temperature : pyval
}.

Definition ModelConfig_default : ModelConfig :=
  mkModelConfig PyNone PyNone PyNone PyNone PyNone (PyFloat (S754_zero false)).

Module Model.

(** An instance, as [__init__] leaves it. *)
Record t : Type := __init__ {
  config : ModelConfig;
  client : pyval;
  framework : string
}.

(** The capability dictionary written out in the constructor. *)
Definition model_capabilities : pyval :=
  PyDict [ ("function_calling", PyBool true);
           ("json_output", PyBool true);
           ("vision", PyBool true);
           ("structured_output", PyBool true) ].

Definition chat_completion_kwargs (config : ModelConfig) : kwargs :=
  dict [ ("azure_endpoint", azure_endpoint config);
         ("api_version", azure_api_version config);
         ("model_capabilities", model_capabilities);
         ("azure_ad_token_provider", azure_token_provider config);
         ("model", azure_model_name config);
         ("temperature", temperature config);
         ("azure_deployment", azure_deployment config) ].

(** [from_azure_openai_for_autogen]: the only named constructor of the
    class. *)
Definition from_azure_openai_for_autogen (sdk : SDK) (config : ModelConfig) : M t :=
  model_client <- construct sdk AzureOpenAIChatCompletionClient
                    (chat_completion_kwargs config) ;;
  let framework := "Autogen" in
  ret (__init__ config model_client framework).

(** A method receives the instance and hands it back next to its result,
    so that a method that assigned to an attribute would show. *)
Definition get_client (self : t) : pyval * t := (client self, self).

(** The methods an instance offers. *)
Inductive method : Type :=
| m_get_client.

Definition call (m : method) (self : t) : pyval * t :=
  match m with
  | m_get_client => get_client self
  end.

End Model.

(** ** Observations used in the statements *)

(** The client class each enumerated framework is served by. *)
Definition framework_class (framework : Framework) : option client_class :=
  match framework with
  | AUTOGEN => Some AzureOpenAIChatCompletionClient
  | LANGGRAPH => Some AzureChatOpenAI
  | OPENAI_AGENTS => Some AsyncAzureOpenAI
  | OTHER _ => None
  end.

(** The object a value refers to. *)
Definition deref (h : list obj) (v : pyval) : option obj :=
  match v with
  | PyRef l => h !! l
  | _ => None
  end.

(** The process-wide registration as an observer sees it: the default API,
    the registered default client read through its reference (with its
    [use_for_tracing] flag), the tracing switch and the environment. *)
Definition registration (st : state)
    : string * option (option obj * bool) * bool * gmap string string :=
  (default_openai_api (agents st),
   (fun cu : pyval * bool => (deref (heap st) cu.1, cu.2))
     <$> default_openai_client (agents st),
   tracing_disabled (agents st),
   environ st).

(** The environment after the three assignments to [os.environ] at the end
    of [_create_openai_agents_client], which stop at the first value that is
    not an assignable string. *)
Definition assignable (v : pyval) : option string :=
  match v with
  | PyStr s => if has_nul s then None else Some s
  | _ => None
  end.

Definition mirrored (endpoint version : pyval) (env : gmap string string)
    : gmap string string :=
  let env1 := <["OPENAI_API_TYPE" := "azure"]> env in
  match assignable endpoint with
  | None => env1
  | Some ep =>
      let env2 := <["OPENAI_API_BASE" := ep]> env1 in
      match assignable version with
      | None => env2
      | Some ver => <["OPENAI_API_VERSION" := ver]> env2
      end
  end.

(** The error the specification describes for a failed construction: an
    exception of its own class that names the framework and has the
    underlying failure attached as its cause. *)
Definition is_ClientConstructionError (framework_name : string)
    (cause e : exn) : Prop :=
  exc_class e = "ClientConstructionError"
  /\ exc_cause e = Some cause
  /\ is_Some (String.index 0 framework_name (exc_msg e)).

(** ** Reference SDKs and sample inputs *)

(** An SDK whose constructors accept everything. *)
Definition permissive_sdk : SDK :=
  mkSDK (fun _ _ _ => None) (fun _ _ => None).

(** An SDK whose constructors insist on every identifying argument they
    are given a name for: it must be present and a non-empty string. *)
Definition nonempty_str (v : option pyval) : bool :=
  match v with
  | Some (PyStr (String _ _)) => true
  | _ => false
  end.

Definition identifying_args (c : client_class) : list string :=
  match c with
  | AzureOpenAIChatCompletionClient =>
      ["azure_endpoint"; "azure_deployment"; "model"; "api_version"]
  | AzureChatOpenAI =>
      ["azure_endpoint"; "azure_deployment"; "name"; "api_version"]
  | AsyncAzureOpenAI =>
      ["azure_endpoint"; "api_version"]
  end.

Definition strict_init (c : client_class) (env : gmap string string)
    (kw : kwargs) : option exn :=
  match List.find (fun k => negb (nonempty_str (kw !! k))) (identifying_args c) with
  | Some k => Some (ValueError (k +:+ " must be a non-empty string"))
  | None => None
  end.

Definition strict_sdk : SDK := mkSDK strict_init (fun _ _ => None).

(** A fresh process: nothing allocated, the [agents] defaults, an empty
    environment. *)
Definition st0 : state :=
  mkState [] (mkAgents "responses" None false) ∅.

(** A complete configuration, in the key names the factory reads. *)
Definition cfg0 : kwargs :=
  dict [ ("model", PyStr "gpt-4o");
         ("temperature", PyFloat (S754_zero false));
         ("azure_deployment", PyStr "gpt-4o-prod");
         ("azure_endpoint", PyStr "https://a.example");
         ("api_version", PyStr "2024-06-01");
         ("azure_ad_token_provider", PyCallable "token_provider") ].

(** The same backend reached through another endpoint and API version. *)
Definition cfg1 : kwargs :=
  <["azure_endpoint" := PyStr "https://b.example"]>
    (<["api_version" := PyStr "2025-01-01"]> cfg0).

(** [cfg0] with the deployment identifier left empty. *)
Definition cfg_no_deployment : kwargs :=
  <["azure_deployment" := PyStr ""]> cfg0.

(** [cfg0] with the endpoint left empty. *)
Definition cfg_no_endpoint : kwargs :=
  <["azure_endpoint" := PyStr ""]> cfg0.

(** ** environment.py *)

(** What [EnvironmentSetup] relies on from outside the repository:
    [load_dotenv] of python-dotenv, as the environment it leaves behind given
    the one it finds; the credential object [AzureCliCredential()] builds;
    and the callable [get_bearer_token_provider] makes of a credential and a
    scope. *)
Record Collaborators : Type := mkCollaborators {
  load_dotenv : gmap string string -> gmap string string;
  AzureCliCredential : pyval;
  get_bearer_token_provider : pyval -> string -> pyval
}.

(** [os.getenv(k)]: the variable, or [None] when it is not set. *)
Definition environ_get (env : gmap string string) (k : string) : pyval :=
  match env !! k with
  | Some s => PyStr s
  | None => PyNone
  end.

Definition getenv (k : string) : M pyval :=
  fun st => (Ok (environ_get (environ st) k), st).

Module EnvironmentSetup.

Record t : Type := mk {
  azure_endpoint : pyval;
  azure_deployment : pyval;
  azure_model_name : pyval;
  azure_api_version : pyval;
  framework : pyval;
  exp_type : pyval;
  credential : pyval;
  token_provider : pyval
}.

Definition __init__ (ext : Collaborators) : M t :=
  (fun st => (Ok tt, mkState (heap st) (agents st) (load_dotenv ext (environ st)))) ;;
  azure_endpoint <- getenv "AZURE_ENDPOINT" ;;
  azure_deployment <- getenv "AZURE_DEPLOYMENT" ;;
  azure_model_name <- getenv "AZURE_MODEL_NAME" ;;
  azure_api_version <- getenv "AZURE_API_VERSION" ;;
  framework <- getenv "FRAMEWORK" ;;
  exp_type <- getenv "EXP_TYPE" ;;
  let credential := AzureCliCredential ext in
  let token_provider :=
    get_bearer_token_provider ext credential "api://trapi/.default" in
  ret (mk azure_endpoint azure_deployment azure_model_name azure_api_version
         framework exp_type credential token_provider).

Definition get_framework (self : t) : pyval := framework self.

Definition get_exp_type (self : t) : pyval := exp_type self.

Definition get_azure_config (self : t) : kwargs :=
  dict [ ("endpoint", azure_endpoint self);
         ("deployment", azure_deployment self);
         ("model_name", azure_model_name self);
         ("api_version", azure_api_version self);
         ("token_provider", token_provider self) ].

End EnvironmentSetup.

(** ** Further observations *)

(** The keys the two renaming routines subscript, in the order they do. *)
Definition langgraph_keys : list string :=
  ["model"; "temperature"; "azure_deployment"; "azure_endpoint";
   "api_version"; "azure_ad_token_provider"].

Definition openai_agents_keys : list string :=
  ["azure_endpoint"; "azure_ad_token_provider"; "api_version"].

(** The first key of a list that a dictionary lacks. *)
Definition first_missing (d : kwargs) (keys : list string) : option string :=
  List.find (fun k => match d !! k with None => true | Some _ => false end) keys.

(** No dangling references: the registered default client is a live
    object, and every binding wraps a live LangChain chat model. *)
Definition registry_ok (st : state) : Prop :=
  forall c u, default_openai_client (agents st) = Some (c, u) ->
              is_Some (deref (heap st) c).

Definition bindings_ok (st : state) : Prop :=
  forall l b ts p, heap st !! l = Some (Binding b ts p) ->
                   exists kw, heap st !! b = Some (Client AzureChatOpenAI kw).

Definition wf (st : state) : Prop := registry_ok st /\ bindings_ok st.

(** ** Further sample inputs *)

(** [cfg0] with the endpoint never filled in. *)
Definition cfg_none_endpoint : kwargs :=
  <["azure_endpoint" := PyNone]> cfg0.

(** [cfg0] without its temperature. *)
Definition cfg_no_temperature : kwargs := delete "temperature" cfg0.

(** A [.env] file that sets two variables, kept from overriding what the
    process already has; a credential and a token provider told apart by
    name only. *)
Definition sample_collaborators : Collaborators :=
  mkCollaborators
    (fun env => env ∪ <["AZURE_ENDPOINT" := "https://a.example"]>
                        (<["AZURE_MODEL_NAME" := "gpt-4o"]> ∅))
    (PyCallable "AzureCliCredential")
    (fun _ scope => PyCallable ("bearer:" +:+ scope)).

(** * Properties *)

Import ClientFactory.

(** ** Stepping through the monad *)

Lemma bind_ok {A B} (m : M A) (k : A -> M B) (st st' : state) (a : A) :
  m st = (Ok a, st') -> bind m k st = k a st'.
Proof. intros H. unfold bind. now rewrite H. Qed.

Lemma bind_raise {A B} (m : M A) (k : A -> M B) (st st' : state) (e : exn) :
  m st = (Raise e, st') -> bind m k st = (Raise e, st').
Proof. intros H. unfold bind. now rewrite H. Qed.

Lemma getitem_some (d : kwargs) (k : string) (v : pyval) (st : state) :
  d !! k = Some v -> getitem d k st = (Ok v, st).
Proof. intros H. unfold getitem. now rewrite H. Qed.

Lemma getitem_none (d : kwargs) (k : string) (st : state) :
  d !! k = None -> getitem d k st = (Raise (KeyError k), st).
Proof. intros H. unfold getitem. now rewrite H. Qed.

Lemma construct_raises (sdk : SDK) (cls : client_class) (kw : kwargs)
    (st : state) (e : exn) :
  sdk_init sdk cls (environ st) kw = Some e ->
  construct sdk cls kw st = (Raise e, st).
Proof. intros H. unfold construct. now rewrite H. Qed.

Lemma construct_returns (sdk : SDK) (cls : client_class) (kw : kwargs)
    (st : state) :
  sdk_init sdk cls (environ st) kw = None ->
  construct sdk cls kw st =
    (Ok (PyRef (length (heap st))),
     mkState (heap st ++ [Client cls kw]) (agents st) (environ st)).
Proof. intros H. unfold construct. now rewrite H. Qed.

(** Whatever [construct] does, it either fails in place or allocates one
    object at the end of the heap; the registry and the environment are
    out of its reach. *)
Lemma construct_cases (sdk : SDK) (cls : client_class) (kw : kwargs)
    (st : state) :
  (exists e, sdk_init sdk cls (environ st) kw = Some e
             /\ construct sdk cls kw st = (Raise e, st))
  \/ (sdk_init sdk cls (environ st) kw = None
      /\ construct sdk cls kw st =
           (Ok (PyRef (length (heap st))),
            mkState (heap st ++ [Client cls kw]) (agents st) (environ st))).
Proof.
  destruct (sdk_init sdk cls (environ st) kw) as [e|] eqn:E.
  - left. exists e. split; [reflexivity | now apply construct_raises].
  - right. split; [reflexivity | now apply construct_returns].
Qed.

Lemma lookup_fresh (h : list obj) (o : obj) :
  (h ++ [o])%list !! length h = Some o.
Proof. now rewrite lookup_app_r, Nat.sub_diag by lia. Qed.

Lemma lookup_old (h : list obj) (o : obj) (l : loc) (x : obj) :
  h !! l = Some x -> (h ++ [o])%list !! l = Some x.
Proof. intros H. now apply lookup_app_l_Some. Qed.

(** ** The LangGraph routine *)

Lemma _create_langgraph_client_reads (sdk : SDK) (llm_config : kwargs)
    (st : state) (name temperature deployment endpoint version provider : pyval) :
  llm_config !! "model" = Some name ->
  llm_config !! "temperature" = Some temperature ->
  llm_config !! "azure_deployment" = Some deployment ->
  llm_config !! "azure_endpoint" = Some endpoint ->
  llm_config !! "api_version" = Some version ->
  llm_config !! "azure_ad_token_provider" = Some provider ->
  _create_langgraph_client sdk llm_config st =
    construct sdk AzureChatOpenAI
      (langgraph_config name temperature deployment endpoint version provider) st.
Proof.
  intros Hn Ht Hd He Hv Hp. unfold _create_langgraph_client.
  rewrite (bind_ok _ _ st st name) by now apply getitem_some.
  rewrite (bind_ok _ _ st st temperature) by now apply getitem_some.
  rewrite (bind_ok _ _ st st deployment) by now apply getitem_some.
  rewrite (bind_ok _ _ st st endpoint) by now apply getitem_some.
  rewrite (bind_ok _ _ st st version) by now apply getitem_some.
  rewrite (bind_ok _ _ st st provider) by now apply getitem_some.
  reflexivity.
Qed.

(** A failed LangGraph call leaves the state as it found it. *)
Lemma _create_langgraph_client_frame (sdk : SDK) (llm_config : kwargs)
    (st st' : state) (r : result pyval) :
  _create_langgraph_client sdk llm_config st = (r, st') ->
  agents st' = agents st /\ environ st' = environ st.
Proof.
  unfold _create_langgraph_client, bind, getitem, ret, raise, construct.
  intros H. repeat case_match; simplify_eq/=; auto.
Qed.

(** ** The OpenAI Agents routine *)

Lemma environ_setitem_assignable (k : string) (v : pyval) (s : string)
    (st : state) :
  assignable v = Some s ->
  environ_setitem k v st =
    (Ok tt, mkState (heap st) (agents st) (<[k := s]> (environ st))).
Proof.
  unfold assignable, environ_setitem. intros H.
  destruct v; try discriminate. destruct (has_nul s0); congruence.
Qed.

Lemma environ_setitem_refused (k : string) (v : pyval) (st : state) :
  assignable v = None ->
  exists e, environ_setitem k v st = (Raise e, st).
Proof.
  unfold assignable, environ_setitem. intros H.
  destruct v; try (eexists; reflexivity).
  destruct (has_nul s); [eexists; reflexivity | discriminate].
Qed.

Lemma _create_openai_agents_client_missing (sdk : SDK) (llm_config : kwargs)
    (st : state) :
  llm_config !! "azure_endpoint" = None
  \/ llm_config !! "azure_ad_token_provider" = None
  \/ llm_config !! "api_version" = None ->
  exists k, _create_openai_agents_client sdk llm_config st = (Raise (KeyError k), st).
Proof.
  intros H. unfold _create_openai_agents_client, bind, getitem, ret, raise.
  destruct (llm_config !! "azure_endpoint") as [ep|]; [|eexists; reflexivity].
  destruct (llm_config !! "azure_ad_token_provider") as [tp|]; [|eexists; reflexivity].
  destruct (llm_config !! "api_version") as [ver|]; [|eexists; reflexivity].
  destruct H as [H|[H|H]]; discriminate.
Qed.

Lemma _create_openai_agents_client_raises (sdk : SDK) (llm_config : kwargs)
    (st : state) (endpoint provider version : pyval) (e : exn) :
  llm_config !! "azure_endpoint" = Some endpoint ->
  llm_config !! "azure_ad_token_provider" = Some provider ->
  llm_config !! "api_version" = Some version ->
  sdk_init sdk AsyncAzureOpenAI (environ st)
    (openai_agents_config endpoint provider version) = Some e ->
  _create_openai_agents_client sdk llm_config st = (Raise e, st).
Proof.
  intros He Hp Hv Hi. unfold _create_openai_agents_client.
  rewrite (bind_ok _ _ st st endpoint) by now apply getitem_some.
  rewrite (bind_ok _ _ st st provider) by now apply getitem_some.
  rewrite (bind_ok _ _ st st version) by now apply getitem_some.
  apply bind_raise. now apply construct_raises.
Qed.

(** Once the constructor has returned, the registry is written in full and
    the environment as far as the values allow; the call returns the new
    handle exactly when both mirrored values were assignable. *)
Lemma _create_openai_agents_client_runs (sdk : SDK) (llm_config : kwargs)
    (st : state) (endpoint provider version : pyval) :
  llm_config !! "azure_endpoint" = Some endpoint ->
  llm_config !! "azure_ad_token_provider" = Some provider ->
  llm_config !! "api_version" = Some version ->
  sdk_init sdk AsyncAzureOpenAI (environ st)
    (openai_agents_config endpoint provider version) = None ->
  exists r,
    _create_openai_agents_client sdk llm_config st =
      (r, mkState
            (heap st ++ [Client AsyncAzureOpenAI
                           (openai_agents_config endpoint provider version)])
            (mkAgents "chat_completions"
               (Some (PyRef (length (heap st)), false)) true)
            (mirrored endpoint version (environ st)))
    /\ (forall c, r = Ok c ->
          c = PyRef (length (heap st))
          /\ exists ep ver, endpoint = PyStr ep /\ version = PyStr ver
                            /\ assignable endpoint = Some ep
                            /\ assignable version = Some ver)
    /\ (forall ep ver, assignable endpoint = Some ep ->
          assignable version = Some ver -> r = Ok (PyRef (length (heap st)))).
Proof.
  intros He Hp Hv Hi. unfold _create_openai_agents_client.
  rewrite (bind_ok _ _ st st endpoint) by now apply getitem_some.
  rewrite (bind_ok _ _ st st provider) by now apply getitem_some.
  rewrite (bind_ok _ _ st st version) by now apply getitem_some.
  erewrite bind_ok by now apply construct_returns.
  unfold mirrored.
  unfold bind at 1. unfold set_default_openai_api at 1.
  unfold bind at 1. unfold set_default_openai_client at 1.
  unfold bind at 1. unfold set_tracing_disabled at 1.
  unfold bind at 1. unfold environ_setitem at 1. cbn [has_nul]. cbn -[bind].
  erewrite bind_ok by (apply getitem_some; exact He).
  destruct (assignable endpoint) as [ep|] eqn:Eep.
  - erewrite bind_ok by (apply environ_setitem_assignable; exact Eep).
    erewrite bind_ok by (apply getitem_some; exact Hv).
    destruct (assignable version) as [ver|] eqn:Ever.
    + erewrite bind_ok by (apply environ_setitem_assignable; exact Ever).
      cbn. eexists. split; [reflexivity|]. split.
      * intros c Hc. inversion Hc; subst. split; [reflexivity|].
        exists ep, ver.
        unfold assignable in Eep, Ever.
        destruct endpoint; try discriminate. destruct version; try discriminate.
        destruct (has_nul s); try discriminate.
        destruct (has_nul s0); try discriminate.
        inversion Eep; inversion Ever; subst.
        repeat split; reflexivity.
      * reflexivity.
    + destruct (environ_setitem_refused "OPENAI_API_VERSION" version
                  (mkState
                     (heap st ++ [Client AsyncAzureOpenAI
                                    (openai_agents_config endpoint provider version)])
                     (mkAgents "chat_completions"
                        (Some (PyRef (length (heap st)), false)) true)
                     (<["OPENAI_API_BASE" := ep]>
                        (<["OPENAI_API_TYPE" := "azure"]> (environ st)))) Ever)
        as [e Hr].
      erewrite bind_raise by exact Hr.
      eexists. split; [reflexivity|]. split; [intros c Hc; discriminate|].
      intros ? ? _ ?; discriminate.
  - destruct (environ_setitem_refused "OPENAI_API_BASE" endpoint
                (mkState
                   (heap st ++ [Client AsyncAzureOpenAI
                                  (openai_agents_config endpoint provider version)])
                   (mkAgents "chat_completions"
                      (Some (PyRef (length (heap st)), false)) true)
                   (<["OPENAI_API_TYPE" := "azure"]> (environ st))) Eep)
      as [e Hr].
    erewrite bind_raise by exact Hr.
    eexists. split; [reflexivity|]. split; [intros c Hc; discriminate|].
    intros ? ? ?; discriminate.
Qed.

(** A call that returns a handle has allocated exactly one object, of the
    class that serves the framework, and returns the reference to it. *)
Lemma create_client_returns_fresh (sdk : SDK) (fw : Framework)
    (llm_config : kwargs) (st st' : state) (c : pyval) :
  create_client sdk fw llm_config st = (Ok c, st') ->
  exists cls kw,
    framework_class fw = Some cls
    /\ c = PyRef (length (heap st))
    /\ heap st' = (heap st ++ [Client cls kw])%list.
Proof.
  destruct fw as [| | |repr]; cbn [create_client framework_class].
  - unfold _create_autogen_client. intros H.
    destruct (construct_cases sdk AzureOpenAIChatCompletionClient llm_config st)
      as [(e & _ & Hc)|(_ & Hc)]; rewrite Hc in H; inversion H; subst.
    eexists _, _. repeat split.
  - unfold _create_langgraph_client, bind, getitem, ret, raise, construct.
    intros H. repeat case_match; simplify_eq/=.
    eexists _, _. repeat split.
  - intros H.
    destruct (llm_config !! "azure_endpoint") as [ep|] eqn:He;
      [|destruct (_create_openai_agents_client_missing sdk llm_config st)
          as [k Hk]; [auto | congruence]].
    destruct (llm_config !! "azure_ad_token_provider") as [tp|] eqn:Hp;
      [|destruct (_create_openai_agents_client_missing sdk llm_config st)
          as [k Hk]; [auto | congruence]].
    destruct (llm_config !! "api_version") as [ver|] eqn:Hv;
      [|destruct (_create_openai_agents_client_missing sdk llm_config st)
          as [k Hk]; [auto | congruence]].
    destruct (sdk_init sdk AsyncAzureOpenAI (environ st)
                (openai_agents_config ep tp ver)) as [e|] eqn:Hi.
    + rewrite (_create_openai_agents_client_raises sdk llm_config st ep tp ver e)
        in H by assumption. discriminate.
    + destruct (_create_openai_agents_client_runs sdk llm_config st ep tp ver
                  He Hp Hv Hi) as (r & Hr & Hok & _).
      rewrite Hr in H. inversion H; subst.
      destruct (Hok c eq_refl) as [-> _].
      eexists _, _. repeat split.
  - unfold raise. intros H. discriminate.
Qed.

(** ** Dispatch *)

(** C1.  A framework value outside the three enumerated ones makes
    [create_client] raise, for every configuration and in every state: the
    exception is Python's [ValueError] with the message
    "Unsupported framework: ..." (the error the specification calls
    UnsupportedFrameworkError), no translation routine runs and the state is
    left untouched.  Each enumerated value is handed to its own routine, and
    a call that returns has built one object of that framework's class. *)
Theorem create_client_dispatch (sdk : SDK) (llm_config : kwargs) (st : state) :
  (forall repr,
     create_client sdk (OTHER repr) llm_config st =
       (Raise (ValueError ("Unsupported framework: " +:+ repr)), st))
  /\ create_client sdk AUTOGEN llm_config st =
       _create_autogen_client sdk llm_config st
  /\ create_client sdk LANGGRAPH llm_config st =
       _create_langgraph_client sdk llm_config st
  /\ create_client sdk OPENAI_AGENTS llm_config st =
       _create_openai_agents_client sdk llm_config st
  /\ (forall fw c st',
        create_client sdk fw llm_config st = (Ok c, st') ->
        exists cls kw,
          framework_class fw = Some cls
          /\ c = PyRef (length (heap st))
          /\ heap st' = (heap st ++ [Client cls kw])%list).
Proof.
  repeat split; try reflexivity.
  intros fw c st' H. now apply (create_client_returns_fresh sdk fw llm_config).
Qed.

Lemma create_client_dispatch_witness :
  create_client strict_sdk LANGGRAPH cfg0 st0 =
    (Ok (PyRef 0), snd (create_client strict_sdk LANGGRAPH cfg0 st0))
  /\ exists cls kw,
       framework_class LANGGRAPH = Some cls
       /\ PyRef 0 = PyRef (length (heap st0))
       /\ heap (snd (create_client strict_sdk LANGGRAPH cfg0 st0)) =
            (heap st0 ++ [Client cls kw])%list.
Proof.
  assert (H : create_client strict_sdk LANGGRAPH cfg0 st0 =
                (Ok (PyRef 0), snd (create_client strict_sdk LANGGRAPH cfg0 st0)))
    by (vm_compute; reflexivity).
  split; [exact H|].
  exact (proj2 (proj2 (proj2 (proj2 (create_client_dispatch strict_sdk cfg0 st0))))
           LANGGRAPH (PyRef 0) _ H).
Defined.

(** C7.  For a framework value outside the enumerated ones,
    [bind_tools_for_framework] never raises: whatever the client, the tools
    and the flag, it returns the client it was given and leaves the state
    untouched, where [create_client] on the same value raises. *)
Theorem bind_tools_for_framework_unsupported (sdk : SDK) (client : pyval)
    (repr : string) (tools : list pyval) (parallel_tool_calls : bool)
    (llm_config : kwargs) (st : state) :
  bind_tools_for_framework sdk client (OTHER repr) tools parallel_tool_calls st =
    (Ok client, st)
  /\ create_client sdk (OTHER repr) llm_config st =
       (Raise (ValueError ("Unsupported framework: " +:+ repr)), st).
Proof. split; reflexivity. Qed.

(** ** Failures of the vendor constructors *)

(** C10.  In [_create_openai_agents_client] the constructor call comes
    before every process-wide write: when [AsyncAzureOpenAI] raises on the
    translated arguments, [create_client] raises that exception and the
    whole state (registry, environment and heap) is what it was. *)
Theorem openai_agents_failure_leaves_state (sdk : SDK) (llm_config : kwargs)
    (st : state) (endpoint provider version : pyval) (e : exn) :
  llm_config !! "azure_endpoint" = Some endpoint ->
  llm_config !! "azure_ad_token_provider" = Some provider ->
  llm_config !! "api_version" = Some version ->
  sdk_init sdk AsyncAzureOpenAI (environ st)
    (openai_agents_config endpoint provider version) = Some e ->
  create_client sdk OPENAI_AGENTS llm_config st = (Raise e, st).
Proof.
  intros He Hp Hv Hi. cbn [create_client].
  now apply (_create_openai_agents_client_raises sdk llm_config st
               endpoint provider version).
Qed.

Lemma openai_agents_failure_leaves_state_witness :
  create_client strict_sdk OPENAI_AGENTS cfg_no_endpoint st0 =
    (Raise (ValueError "azure_endpoint must be a non-empty string"), st0).
Proof.
  apply (openai_agents_failure_leaves_state strict_sdk cfg_no_endpoint st0
           (PyStr "") (PyCallable "token_provider") (PyStr "2024-06-01"));
    vm_compute; reflexivity.
Defined.

(** C2, as the code has it.  When the vendor constructor of the chosen
    framework raises, [create_client] raises that very exception: it is
    neither swallowed nor wrapped, no handle is returned, nothing is
    allocated and the state is what it was.  For LangGraph and OpenAI
    Agents the constructor is reached once every key the routine reads is
    present. *)
Theorem create_client_propagates_cause (sdk : SDK) (llm_config : kwargs)
    (st : state) (e : exn) :
  (sdk_init sdk AzureOpenAIChatCompletionClient (environ st) llm_config = Some e ->
   create_client sdk AUTOGEN llm_config st = (Raise e, st))
  /\ (forall name temperature deployment endpoint version provider,
        llm_config !! "model" = Some name ->
        llm_config !! "temperature" = Some temperature ->
        llm_config !! "azure_deployment" = Some deployment ->
        llm_config !! "azure_endpoint" = Some endpoint ->
        llm_config !! "api_version" = Some version ->
        llm_config !! "azure_ad_token_provider" = Some provider ->
        sdk_init sdk AzureChatOpenAI (environ st)
          (langgraph_config name temperature deployment endpoint version provider)
          = Some e ->
        create_client sdk LANGGRAPH llm_config st = (Raise e, st))
  /\ (forall endpoint provider version,
        llm_config !! "azure_endpoint" = Some endpoint ->
        llm_config !! "azure_ad_token_provider" = Some provider ->
        llm_config !! "api_version" = Some version ->
        sdk_init sdk AsyncAzureOpenAI (environ st)
          (openai_agents_config endpoint provider version) = Some e ->
        create_client sdk OPENAI_AGENTS llm_config st = (Raise e, st)).
Proof.
  repeat split.
  - intros Hi. cbn [create_client]. unfold _create_autogen_client.
    now apply construct_raises.
  - intros name temperature deployment endpoint version provider
      Hn Ht Hd He Hv Hp Hi. cbn [create_client].
    rewrite (_create_langgraph_client_reads sdk llm_config st
               name temperature deployment endpoint version provider)
      by assumption.
    now apply construct_raises.
  - intros endpoint provider version He Hp Hv Hi. cbn [create_client].
    now apply (_create_openai_agents_client_raises sdk llm_config st
                 endpoint provider version).
Qed.

Lemma create_client_propagates_cause_witness :
  sdk_init strict_sdk AzureOpenAIChatCompletionClient (environ st0)
    cfg_no_endpoint
    = Some (ValueError "azure_endpoint must be a non-empty string")
  /\ create_client strict_sdk AUTOGEN cfg_no_endpoint st0 =
       (Raise (ValueError "azure_endpoint must be a non-empty string"), st0).
Proof.
  assert (H : sdk_init strict_sdk AzureOpenAIChatCompletionClient (environ st0)
                cfg_no_endpoint
              = Some (ValueError "azure_endpoint must be a non-empty string"))
    by (vm_compute; reflexivity).
  split; [exact H|].
  exact (proj1 (create_client_propagates_cause strict_sdk cfg_no_endpoint st0 _) H).
Defined.

(** C2, as the specification words it, fails: with a constructor that
    rejects the empty endpoint, what reaches the caller of [create_client]
    is the constructor's own [ValueError].  Its class is not
    ClientConstructionError, it has no cause attached and its text names no
    framework. *)
Lemma create_client_raises_bare_cause :
  sdk_init strict_sdk AzureOpenAIChatCompletionClient (environ st0)
    cfg_no_endpoint
    = Some (ValueError "azure_endpoint must be a non-empty string")
  /\ create_client strict_sdk AUTOGEN cfg_no_endpoint st0 =
       (Raise (ValueError "azure_endpoint must be a non-empty string"), st0)
  /\ ~ (exists framework_name e st',
          create_client strict_sdk AUTOGEN cfg_no_endpoint st0 = (Raise e, st')
          /\ is_ClientConstructionError framework_name
               (ValueError "azure_endpoint must be a non-empty string") e).
Proof.
  assert (H : create_client strict_sdk AUTOGEN cfg_no_endpoint st0 =
                (Raise (ValueError "azure_endpoint must be a non-empty string"), st0))
    by (vm_compute; reflexivity).
  split; [vm_compute; reflexivity|]. split; [exact H|].
  intros (n & e & st' & Hr & Hc & _). rewrite H in Hr.
  inversion Hr; subst. cbn in Hc. discriminate.
Qed.

(** ** Field translation *)

Lemma langgraph_config_lookup
    (name temperature deployment endpoint version provider : pyval) :
  let kw := langgraph_config name temperature deployment endpoint version provider in
  kw !! "name" = Some name
  /\ kw !! "temperature" = Some temperature
  /\ kw !! "azure_deployment" = Some deployment
  /\ kw !! "azure_endpoint" = Some endpoint
  /\ kw !! "api_version" = Some version
  /\ kw !! "azure_ad_token_provider" = Some provider
  /\ (forall k, is_Some (kw !! k) ->
        k ∈ ["name"; "temperature"; "azure_deployment"; "azure_endpoint";
             "api_version"; "azure_ad_token_provider"]).
Proof.
  cbn zeta. repeat split; try reflexivity.
  intros k [v Hk]. unfold langgraph_config, dict in Hk. cbn [foldl fst snd] in Hk.
  repeat (rewrite lookup_insert in Hk; case_decide;
          [subst k; set_solver|]).
  rewrite lookup_empty in Hk. discriminate.
Qed.

(** C3.  For a configuration that carries the six canonical fields (their
    values may be anything, in particular non-empty), the LangGraph routine
    calls [AzureChatOpenAI] with the renamed arguments and nothing else:
    [name] is the canonical model name, and [azure_endpoint],
    [api_version], [azure_deployment], [azure_ad_token_provider] and
    [temperature] are the canonical fields of the same name.  The Autogen
    routine hands the configuration to its constructor as it is, so [model]
    is the canonical model name.  A client that is returned has captured
    exactly those arguments. *)
Theorem create_client_field_translation (sdk : SDK) (llm_config : kwargs)
    (st : state) (name temperature deployment endpoint version provider : pyval) :
  llm_config !! "model" = Some name ->
  llm_config !! "temperature" = Some temperature ->
  llm_config !! "azure_deployment" = Some deployment ->
  llm_config !! "azure_endpoint" = Some endpoint ->
  llm_config !! "api_version" = Some version ->
  llm_config !! "azure_ad_token_provider" = Some provider ->
  (exists kw,
     create_client sdk LANGGRAPH llm_config st = construct sdk AzureChatOpenAI kw st
     /\ (forall c st',
           create_client sdk LANGGRAPH llm_config st = (Ok c, st') ->
           deref (heap st') c = Some (Client AzureChatOpenAI kw))
     /\ kw !! "name" = Some name
     /\ kw !! "temperature" = Some temperature
     /\ kw !! "azure_deployment" = Some deployment
     /\ kw !! "azure_endpoint" = Some endpoint
     /\ kw !! "api_version" = Some version
     /\ kw !! "azure_ad_token_provider" = Some provider
     /\ (forall k, is_Some (kw !! k) ->
           k ∈ ["name"; "temperature"; "azure_deployment"; "azure_endpoint";
                "api_version"; "azure_ad_token_provider"]))
  /\ (exists kw,
        create_client sdk AUTOGEN llm_config st =
          construct sdk AzureOpenAIChatCompletionClient kw st
        /\ (forall c st',
              create_client sdk AUTOGEN llm_config st = (Ok c, st') ->
              deref (heap st') c = Some (Client AzureOpenAIChatCompletionClient kw))
        /\ kw !! "model" = Some name).
Proof.
  intros Hn Ht Hd He Hv Hp. split.
  - exists (langgraph_config name temperature deployment endpoint version provider).
    assert (Hcall : create_client sdk LANGGRAPH llm_config st =
                      construct sdk AzureChatOpenAI
                        (langgraph_config name temperature deployment endpoint
                           version provider) st).
    { cbn [create_client].
      now apply _create_langgraph_client_reads. }
    split; [exact Hcall|]. split.
    + intros c st' H. rewrite Hcall in H.
      destruct (construct_cases sdk AzureChatOpenAI
                  (langgraph_config name temperature deployment endpoint
                     version provider) st)
        as [(e & _ & Hc)|(_ & Hc)]; rewrite Hc in H; inversion H; subst.
      cbn [deref heap]. apply lookup_fresh.
    + apply langgraph_config_lookup.
  - exists llm_config. split; [reflexivity|]. split; [|exact Hn].
    intros c st' H. cbn [create_client] in H. unfold _create_autogen_client in H.
    destruct (construct_cases sdk AzureOpenAIChatCompletionClient llm_config st)
      as [(e & _ & Hc)|(_ & Hc)]; rewrite Hc in H; inversion H; subst.
    cbn [deref heap]. apply lookup_fresh.
Qed.

Lemma create_client_field_translation_witness :
  exists kw,
    create_client strict_sdk LANGGRAPH cfg0 st0 =
      construct strict_sdk AzureChatOpenAI kw st0
    /\ kw !! "name" = Some (PyStr "gpt-4o")
    /\ kw !! "azure_deployment" = Some (PyStr "gpt-4o-prod").
Proof.
  destruct (create_client_field_translation strict_sdk cfg0 st0
              (PyStr "gpt-4o") (PyFloat (S754_zero false)) (PyStr "gpt-4o-prod")
              (PyStr "https://a.example") (PyStr "2024-06-01")
              (PyCallable "token_provider")
              eq_refl eq_refl eq_refl eq_refl eq_refl eq_refl)
    as [(kw & Hcall & _ & Hname & _ & Hdep & _) _].
  exists kw. auto.
Defined.

(** ** Empty fields *)

(** The OpenAI Agents routine reads three keys; an assignment to any other
    key of the configuration cannot change what it does. *)
Lemma _create_openai_agents_client_ignores (sdk : SDK) (llm_config : kwargs)
    (k : string) (v : pyval) (st : state) :
  k <> "azure_endpoint" -> k <> "azure_ad_token_provider" -> k <> "api_version" ->
  _create_openai_agents_client sdk (<[k := v]> llm_config) st =
    _create_openai_agents_client sdk llm_config st.
Proof.
  intros H1 H2 H3. unfold _create_openai_agents_client, getitem.
  rewrite !lookup_insert_ne by congruence. reflexivity.
Qed.

(** C4, as the specification words it, fails: a configuration whose
    deployment identifier is the empty string yields a client for OpenAI
    Agents, even with constructors that reject every empty argument they
    are shown. *)
Lemma empty_deployment_is_accepted :
  cfg_no_deployment !! "azure_deployment" = Some (PyStr "")
  /\ fst (create_client strict_sdk OPENAI_AGENTS cfg_no_deployment st0) =
       Ok (PyRef 0)
  /\ deref (heap (snd (create_client strict_sdk OPENAI_AGENTS
                         cfg_no_deployment st0))) (PyRef 0) =
       Some (Client AsyncAzureOpenAI
               (openai_agents_config (PyStr "https://a.example")
                  (PyCallable "token_provider") (PyStr "2024-06-01"))).
Proof. repeat split; vm_compute; reflexivity. Qed.

(** C4, as the code has it.  The factory tests no field for emptiness;
    whether an empty field makes construction fail is decided by the vendor
    constructor that receives it.  For Autogen the configuration reaches the
    constructor whole, so the call fails exactly when the constructor
    raises, with the constructor's exception and the state untouched; the
    same holds for LangGraph on the renamed arguments.  For OpenAI Agents
    the deployment identifier and the model name are never read: the call
    does the same whatever they are. *)
Theorem empty_field_is_left_to_constructor (sdk : SDK) (llm_config : kwargs)
    (st : state) :
  (forall e st',
     create_client sdk AUTOGEN llm_config st = (Raise e, st') <->
     sdk_init sdk AzureOpenAIChatCompletionClient (environ st) llm_config = Some e
     /\ st' = st)
  /\ (forall name temperature deployment endpoint version provider e st',
        llm_config !! "model" = Some name ->
        llm_config !! "temperature" = Some temperature ->
        llm_config !! "azure_deployment" = Some deployment ->
        llm_config !! "azure_endpoint" = Some endpoint ->
        llm_config !! "api_version" = Some version ->
        llm_config !! "azure_ad_token_provider" = Some provider ->
        (create_client sdk LANGGRAPH llm_config st = (Raise e, st') <->
         sdk_init sdk AzureChatOpenAI (environ st)
           (langgraph_config name temperature deployment endpoint version provider)
           = Some e
         /\ st' = st))
  /\ (forall v,
        create_client sdk OPENAI_AGENTS (<["azure_deployment" := v]> llm_config) st =
          create_client sdk OPENAI_AGENTS llm_config st)
  /\ (forall v,
        create_client sdk OPENAI_AGENTS (<["model" := v]> llm_config) st =
          create_client sdk OPENAI_AGENTS llm_config st).
Proof.
  split; [|split; [|split]].
  - intros e st'. cbn [create_client]. unfold _create_autogen_client. split.
    + intros H.
      destruct (construct_cases sdk AzureOpenAIChatCompletionClient llm_config st)
        as [(e' & Hi & Hc)|(_ & Hc)]; rewrite Hc in H; inversion H; subst.
      split; [exact Hi | reflexivity].
    + intros [Hi ->]. now apply construct_raises.
  - intros name temp dep ep ver prov e st' Hn Ht Hd He Hv Hp.
    cbn [create_client].
    rewrite (_create_langgraph_client_reads sdk llm_config st
               name temp dep ep ver prov) by assumption.
    split.
    + intros H.
      destruct (construct_cases sdk AzureChatOpenAI
                  (langgraph_config name temp dep ep ver prov) st)
        as [(e' & Hi & Hc)|(_ & Hc)]; rewrite Hc in H; inversion H; subst.
      split; [exact Hi | reflexivity].
    + intros [Hi ->]. now apply construct_raises.
  - intros v. cbn [create_client].
    now apply _create_openai_agents_client_ignores.
  - intros v. cbn [create_client].
    now apply _create_openai_agents_client_ignores.
Qed.

Lemma empty_field_is_left_to_constructor_witness :
  (sdk_init strict_sdk AzureOpenAIChatCompletionClient (environ st0)
     cfg_no_deployment
     = Some (ValueError "azure_deployment must be a non-empty string")
   /\ st0 = st0)
  /\ create_client strict_sdk AUTOGEN cfg_no_deployment st0 =
       (Raise (ValueError "azure_deployment must be a non-empty string"), st0).
Proof.
  assert (H : sdk_init strict_sdk AzureOpenAIChatCompletionClient (environ st0)
                cfg_no_deployment
              = Some (ValueError "azure_deployment must be a non-empty string")
              /\ st0 = st0)
    by (split; vm_compute; reflexivity).
  split; [exact H|].
  exact (proj2 (proj1 (empty_field_is_left_to_constructor
                         strict_sdk cfg_no_deployment st0) _ _) H).
Defined.

(** ** Process-wide effects *)

(** What a returning OpenAI Agents call has done, in full. *)
Lemma _create_openai_agents_client_ok (sdk : SDK) (llm_config : kwargs)
    (st st' : state) (c : pyval) :
  _create_openai_agents_client sdk llm_config st = (Ok c, st') ->
  exists ep provider ver,
    llm_config !! "azure_endpoint" = Some (PyStr ep)
    /\ llm_config !! "azure_ad_token_provider" = Some provider
    /\ llm_config !! "api_version" = Some (PyStr ver)
    /\ sdk_init sdk AsyncAzureOpenAI (environ st)
         (openai_agents_config (PyStr ep) provider (PyStr ver)) = None
    /\ c = PyRef (length (heap st))
    /\ st' = mkState
               (heap st ++ [Client AsyncAzureOpenAI
                              (openai_agents_config (PyStr ep) provider (PyStr ver))])
               (mkAgents "chat_completions" (Some (c, false)) true)
               (<["OPENAI_API_VERSION" := ver]>
                  (<["OPENAI_API_BASE" := ep]>
                     (<["OPENAI_API_TYPE" := "azure"]> (environ st)))).
Proof.
  intros H.
  destruct (llm_config !! "azure_endpoint") as [ep|] eqn:He;
    [|destruct (_create_openai_agents_client_missing sdk llm_config st)
        as [k Hk]; [auto | congruence]].
  destruct (llm_config !! "azure_ad_token_provider") as [tp|] eqn:Hp;
    [|destruct (_create_openai_agents_client_missing sdk llm_config st)
        as [k Hk]; [auto | congruence]].
  destruct (llm_config !! "api_version") as [ver|] eqn:Hv;
    [|destruct (_create_openai_agents_client_missing sdk llm_config st)
        as [k Hk]; [auto | congruence]].
  destruct (sdk_init sdk AsyncAzureOpenAI (environ st)
              (openai_agents_config ep tp ver)) as [e|] eqn:Hi.
  - rewrite (_create_openai_agents_client_raises sdk llm_config st ep tp ver e)
      in H by assumption. discriminate.
  - destruct (_create_openai_agents_client_runs sdk llm_config st ep tp ver
                He Hp Hv Hi) as (r & Hr & Hok & _).
    rewrite Hr in H. inversion H; subst.
    destruct (Hok c eq_refl) as (-> & s_ep & s_ver & -> & -> & Hae & Hav).
    exists s_ep, tp, s_ver. unfold mirrored. rewrite Hae, Hav.
    repeat split; assumption.
Qed.

(** C5.  [create_client] writes neither the registry of the [agents]
    package nor the environment for any framework but OpenAI Agents,
    whatever the outcome of the call.  For OpenAI Agents a call that returns
    has registered the client it returns, which it has just constructed, as
    the default client (not used for tracing), set the default API to
    "chat_completions", disabled tracing, and stored "azure", the endpoint
    and the API version under OPENAI_API_TYPE, OPENAI_API_BASE and
    OPENAI_API_VERSION. *)
Theorem create_client_side_effects (sdk : SDK) (fw : Framework)
    (llm_config : kwargs) (st st' : state) (r : result pyval) :
  create_client sdk fw llm_config st = (r, st') ->
  (fw <> OPENAI_AGENTS -> agents st' = agents st /\ environ st' = environ st)
  /\ (fw = OPENAI_AGENTS -> forall c, r = Ok c ->
        exists ep ver,
          llm_config !! "azure_endpoint" = Some (PyStr ep)
          /\ llm_config !! "api_version" = Some (PyStr ver)
          /\ c = PyRef (length (heap st))
          /\ (exists kw, deref (heap st') c = Some (Client AsyncAzureOpenAI kw))
          /\ agents st' = mkAgents "chat_completions" (Some (c, false)) true
          /\ environ st' =
               <["OPENAI_API_VERSION" := ver]>
                 (<["OPENAI_API_BASE" := ep]>
                    (<["OPENAI_API_TYPE" := "azure"]> (environ st)))).
Proof.
  intros H. split.
  - intros Hfw. destruct fw as [| | |repr]; cbn [create_client] in H.
    + unfold _create_autogen_client in H.
      destruct (construct_cases sdk AzureOpenAIChatCompletionClient llm_config st)
        as [(e & _ & Hc)|(_ & Hc)]; rewrite Hc in H; inversion H; subst; auto.
    + now apply (_create_langgraph_client_frame sdk llm_config st st' r).
    + contradiction.
    + unfold raise in H. inversion H; subst; auto.
  - intros -> c ->. cbn [create_client] in H.
    destruct (_create_openai_agents_client_ok sdk llm_config st st' c H)
      as (ep & tp & ver & He & _ & Hv & _ & Hc & ->).
    exists ep, ver. cbn [heap agents environ].
    repeat split; try assumption.
    eexists. rewrite Hc. cbn [deref]. apply lookup_fresh.
Qed.

Lemma create_client_side_effects_witness :
  create_client strict_sdk OPENAI_AGENTS cfg0 st0 =
    (Ok (PyRef 0), snd (create_client strict_sdk OPENAI_AGENTS cfg0 st0))
  /\ exists ep ver,
       cfg0 !! "azure_endpoint" = Some (PyStr ep)
       /\ cfg0 !! "api_version" = Some (PyStr ver)
       /\ PyRef 0 = PyRef (length (heap st0))
       /\ (exists kw,
             deref (heap (snd (create_client strict_sdk OPENAI_AGENTS cfg0 st0)))
               (PyRef 0) = Some (Client AsyncAzureOpenAI kw))
       /\ agents (snd (create_client strict_sdk OPENAI_AGENTS cfg0 st0)) =
            mkAgents "chat_completions" (Some (PyRef 0, false)) true
       /\ environ (snd (create_client strict_sdk OPENAI_AGENTS cfg0 st0)) =
            <["OPENAI_API_VERSION" := ver]>
              (<["OPENAI_API_BASE" := ep]>
                 (<["OPENAI_API_TYPE" := "azure"]> (environ st0))).
Proof.
  assert (H : create_client strict_sdk OPENAI_AGENTS cfg0 st0 =
                (Ok (PyRef 0), snd (create_client strict_sdk OPENAI_AGENTS cfg0 st0)))
    by (vm_compute; reflexivity).
  split; [exact H|].
  exact (proj2 (create_client_side_effects strict_sdk OPENAI_AGENTS cfg0 st0 _ _ H)
           eq_refl (PyRef 0) eq_refl).
Defined.

(** ** Tool binding *)

(** C6.  For Autogen and OpenAI Agents [bind_tools_for_framework] returns
    the very reference it was given and leaves the state untouched,
    whatever the client, the tools and the flag.  For LangGraph it calls the
    client's own [bind_tools] with the tool list and the flag as given; on
    a LangGraph chat model whose tools the SDK accepts, that returns a
    handle that did not exist before, bound to the model with exactly the
    given tools and the given flag, and no existing object, registry entry
    or environment variable is changed. *)
Theorem bind_tools_for_framework_spec (sdk : SDK) (client : pyval)
    (tools : list pyval) (parallel_tool_calls : bool) (st : state) :
  bind_tools_for_framework sdk client AUTOGEN tools parallel_tool_calls st =
    (Ok client, st)
  /\ bind_tools_for_framework sdk client OPENAI_AGENTS tools parallel_tool_calls st =
       (Ok client, st)
  /\ bind_tools_for_framework sdk client LANGGRAPH tools parallel_tool_calls st =
       bind_tools sdk client tools parallel_tool_calls st
  /\ (forall l kw,
        client = PyRef l ->
        heap st !! l = Some (Client AzureChatOpenAI kw) ->
        sdk_convert_tools sdk kw tools = None ->
        exists handle st',
          bind_tools_for_framework sdk client LANGGRAPH tools parallel_tool_calls st =
            (Ok handle, st')
          /\ handle <> client
          /\ deref (heap st) handle = None
          /\ deref (heap st') handle = Some (Binding l tools parallel_tool_calls)
          /\ (forall l' o, heap st !! l' = Some o -> heap st' !! l' = Some o)
          /\ agents st' = agents st
          /\ environ st' = environ st).
Proof.
  repeat split.
  intros l kw -> Hl Hconv.
  exists (PyRef (length (heap st))),
         (mkState (heap st ++ [Binding l tools parallel_tool_calls])
            (agents st) (environ st)).
  cbn [bind_tools_for_framework]. unfold bind_tools, chat_model_of.
  rewrite Hl, Hconv. cbn [heap agents environ deref].
  repeat split.
  - intros Heq. inversion Heq as [Hlen].
    apply lookup_lt_Some in Hl. lia.
  - apply lookup_ge_None. lia.
  - apply lookup_fresh.
  - intros l' o Ho. now apply lookup_old.
Qed.

Lemma bind_tools_for_framework_spec_witness :
  exists handle st',
    bind_tools_for_framework strict_sdk (PyRef 0) LANGGRAPH
      [PyCallable "t1"; PyCallable "t2"] false
      (snd (create_client strict_sdk LANGGRAPH cfg0 st0)) = (Ok handle, st')
    /\ handle <> PyRef 0
    /\ deref (heap st') handle =
         Some (Binding 0 [PyCallable "t1"; PyCallable "t2"] false).
Proof.
  destruct (proj2 (proj2 (proj2
              (bind_tools_for_framework_spec strict_sdk (PyRef 0)
                 [PyCallable "t1"; PyCallable "t2"] false
                 (snd (create_client strict_sdk LANGGRAPH cfg0 st0)))))
              0 (langgraph_config (PyStr "gpt-4o") (PyFloat (S754_zero false))
                   (PyStr "gpt-4o-prod") (PyStr "https://a.example")
                   (PyStr "2024-06-01") (PyCallable "token_provider"))
              eq_refl eq_refl eq_refl)
    as (handle & st' & Hcall & Hne & _ & Hb & _).
  exists handle, st'. auto.
Defined.

(** ** Repeated registration *)

Lemma mirrored_idem (endpoint version : pyval) (env : gmap string string) :
  mirrored endpoint version (mirrored endpoint version env) =
    mirrored endpoint version env.
Proof.
  unfold mirrored.
  destruct (assignable endpoint) as [ep|]; [destruct (assignable version) as [ver|]|];
    apply map_eq; intros k; rewrite !lookup_insert;
    repeat case_decide; congruence.
Qed.

Lemma mirrored_overwritten (endpoint version : pyval) (a b c : string)
    (env : gmap string string) :
  <["OPENAI_API_VERSION" := c]>
    (<["OPENAI_API_BASE" := b]>
       (<["OPENAI_API_TYPE" := a]> (mirrored endpoint version env))) =
  <["OPENAI_API_VERSION" := c]>
    (<["OPENAI_API_BASE" := b]> (<["OPENAI_API_TYPE" := a]> env)).
Proof.
  unfold mirrored.
  destruct (assignable endpoint) as [ep|]; [destruct (assignable version) as [ver|]|];
    apply map_eq; intros k; rewrite !lookup_insert;
    repeat case_decide; congruence.
Qed.

(** The state an OpenAI Agents call leaves behind, whether it returns or
    raises: the one it found, or that one with a new client registered and
    the environment mirrored as far as the values allowed. *)
Lemma _create_openai_agents_client_state (sdk : SDK) (llm_config : kwargs)
    (st st1 : state) (r : result pyval) :
  _create_openai_agents_client sdk llm_config st = (r, st1) ->
  st1 = st
  \/ exists endpoint provider version,
       llm_config !! "azure_endpoint" = Some endpoint
       /\ llm_config !! "azure_ad_token_provider" = Some provider
       /\ llm_config !! "api_version" = Some version
       /\ st1 = mkState
                  (heap st ++ [Client AsyncAzureOpenAI
                                 (openai_agents_config endpoint provider version)])
                  (mkAgents "chat_completions"
                     (Some (PyRef (length (heap st)), false)) true)
                  (mirrored endpoint version (environ st)).
Proof.
  intros H.
  destruct (llm_config !! "azure_endpoint") as [ep|] eqn:He;
    [|destruct (_create_openai_agents_client_missing sdk llm_config st)
        as [k Hk]; [auto | left; congruence]].
  destruct (llm_config !! "azure_ad_token_provider") as [tp|] eqn:Hp;
    [|destruct (_create_openai_agents_client_missing sdk llm_config st)
        as [k Hk]; [auto | left; congruence]].
  destruct (llm_config !! "api_version") as [ver|] eqn:Hv;
    [|destruct (_create_openai_agents_client_missing sdk llm_config st)
        as [k Hk]; [auto | left; congruence]].
  destruct (sdk_init sdk AsyncAzureOpenAI (environ st)
              (openai_agents_config ep tp ver)) as [e|] eqn:Hi.
  - rewrite (_create_openai_agents_client_raises sdk llm_config st ep tp ver e)
      in H by assumption. left. congruence.
  - destruct (_create_openai_agents_client_runs sdk llm_config st ep tp ver
                He Hp Hv Hi) as (r' & Hr & _).
    rewrite Hr in H. inversion H; subst.
    right. exists ep, tp, ver. auto.
Qed.

Lemma openai_agents_registration_idem (sdk : SDK) (llm_config : kwargs)
    (st : state) :
  registration
    (snd (_create_openai_agents_client sdk llm_config
            (snd (_create_openai_agents_client sdk llm_config st)))) =
  registration (snd (_create_openai_agents_client sdk llm_config st)).
Proof.
  destruct (_create_openai_agents_client sdk llm_config st) as [r st1] eqn:H1.
  cbn [snd].
  destruct (_create_openai_agents_client_state sdk llm_config st st1 r H1)
    as [->|(ep & tp & ver & He & Hp & Hv & Hst1)].
  { now rewrite H1. }
  destruct (_create_openai_agents_client sdk llm_config st1) as [r2 st2] eqn:H2.
  cbn [snd].
  destruct (_create_openai_agents_client_state sdk llm_config st1 st2 r2 H2)
    as [->|(ep' & tp' & ver' & He' & Hp' & Hv' & Hst2)]; [reflexivity|].
  assert (ep' = ep) as -> by congruence.
  assert (tp' = tp) as -> by congruence.
  assert (ver' = ver) as -> by congruence.
  subst st2 st1. unfold registration. cbn [heap agents environ
    default_openai_api default_openai_client tracing_disabled fmap option_fmap
    option_map fst snd deref].
  rewrite !lookup_fresh, mirrored_idem. reflexivity.
Qed.

Lemma openai_agents_config_inj (e1 p1 v1 e2 p2 v2 : pyval) :
  openai_agents_config e1 p1 v1 = openai_agents_config e2 p2 v2 ->
  e1 = e2 /\ p1 = p2 /\ v1 = v2.
Proof.
  intros H. repeat split.
  - apply (f_equal (fun m : kwargs => m !! "azure_endpoint")) in H.
    vm_compute in H. congruence.
  - apply (f_equal (fun m : kwargs => m !! "azure_ad_token_provider")) in H.
    vm_compute in H. congruence.
  - apply (f_equal (fun m : kwargs => m !! "api_version")) in H.
    vm_compute in H. congruence.
Qed.

(** C8.  OpenAI Agents, called again with the configuration of the call
    before, leaves the registration as that call left it: the same default
    API, tracing switch and environment, and a default client built from
    the same arguments (a new object when the second constructor call
    returns).  Called with another configuration, a call that returns
    leaves a registration made of its own values alone: its client, and its
    endpoint and API version over the environment the first call found.
    Where the two configurations differ in a field the routine reads, that
    registration is not the one the first call left. *)
Theorem openai_agents_registration_repeated (sdk : SDK) (st : state) :
  (forall llm_config,
     registration
       (snd (create_client sdk OPENAI_AGENTS llm_config
               (snd (create_client sdk OPENAI_AGENTS llm_config st)))) =
     registration (snd (create_client sdk OPENAI_AGENTS llm_config st)))
  /\ (forall first second c st2,
        create_client sdk OPENAI_AGENTS second
          (snd (create_client sdk OPENAI_AGENTS first st)) = (Ok c, st2) ->
        exists ep provider ver,
          second !! "azure_endpoint" = Some (PyStr ep)
          /\ second !! "azure_ad_token_provider" = Some provider
          /\ second !! "api_version" = Some (PyStr ver)
          /\ registration st2 =
               ("chat_completions",
                Some (Some (Client AsyncAzureOpenAI
                              (openai_agents_config (PyStr ep) provider (PyStr ver))),
                      false),
                true,
                <["OPENAI_API_VERSION" := ver]>
                  (<["OPENAI_API_BASE" := ep]>
                     (<["OPENAI_API_TYPE" := "azure"]> (environ st)))))
  /\ (forall first second c1 st1 c2 st2,
        create_client sdk OPENAI_AGENTS first st = (Ok c1, st1) ->
        create_client sdk OPENAI_AGENTS second st1 = (Ok c2, st2) ->
        first !! "azure_endpoint" <> second !! "azure_endpoint"
        \/ first !! "azure_ad_token_provider" <> second !! "azure_ad_token_provider"
        \/ first !! "api_version" <> second !! "api_version" ->
        registration st2 <> registration st1).
Proof.
  split; [|split].
  - intros llm_config. cbn [create_client].
    apply openai_agents_registration_idem.
  - intros first second c st2. cbn [create_client].
    destruct (_create_openai_agents_client sdk first st) as [r1 st1] eqn:H1.
    cbn [snd]. intros H2.
    destruct (_create_openai_agents_client_ok sdk second st1 st2 c H2)
      as (ep & tp & ver & He & Hp & Hv & _ & Hc & ->).
    exists ep, tp, ver. repeat split; try assumption.
    unfold registration. cbn [heap agents environ
      default_openai_api default_openai_client tracing_disabled fmap option_fmap
      option_map fst snd].
    rewrite Hc. cbn [deref]. rewrite lookup_fresh.
    destruct (_create_openai_agents_client_state sdk first st st1 r1 H1)
      as [->|(ep1 & tp1 & ver1 & _ & _ & _ & ->)]; [reflexivity|].
    cbn [environ]. now rewrite mirrored_overwritten.
  - intros first second c1 st1 c2 st2. cbn [create_client]. intros H1 H2 Hdiff Heq.
    destruct (_create_openai_agents_client_ok sdk first st st1 c1 H1)
      as (ep1 & tp1 & ver1 & He1 & Hp1 & Hv1 & _ & Hc1 & Hst1).
    destruct (_create_openai_agents_client_ok sdk second st1 st2 c2 H2)
      as (ep2 & tp2 & ver2 & He2 & Hp2 & Hv2 & _ & Hc2 & Hst2).
    subst st2. subst st1. unfold registration in Heq. cbn [heap agents environ
      default_openai_api default_openai_client tracing_disabled fmap option_fmap
      option_map fst snd] in Heq.
    rewrite Hc1, Hc2 in Heq. cbn [deref heap] in Heq.
    rewrite !lookup_fresh in Heq.
    assert (Hkw : openai_agents_config (PyStr ep2) tp2 (PyStr ver2) =
                  openai_agents_config (PyStr ep1) tp1 (PyStr ver1))
      by congruence.
    apply openai_agents_config_inj in Hkw. destruct Hkw as (Ee & Ep & Ev).
    rewrite He1, Hp1, Hv1, He2, Hp2, Hv2 in Hdiff.
    destruct Hdiff as [Hd|[Hd|Hd]]; apply Hd; congruence.
Qed.

Lemma openai_agents_registration_repeated_witness :
  (create_client permissive_sdk OPENAI_AGENTS cfg0 st0 =
     (Ok (PyRef 0), snd (create_client permissive_sdk OPENAI_AGENTS cfg0 st0))
   /\ create_client permissive_sdk OPENAI_AGENTS cfg1
        (snd (create_client permissive_sdk OPENAI_AGENTS cfg0 st0)) =
        (Ok (PyRef 1),
         snd (create_client permissive_sdk OPENAI_AGENTS cfg1
                (snd (create_client permissive_sdk OPENAI_AGENTS cfg0 st0))))
   /\ (cfg0 !! "azure_endpoint" <> cfg1 !! "azure_endpoint"
       \/ cfg0 !! "azure_ad_token_provider" <> cfg1 !! "azure_ad_token_provider"
       \/ cfg0 !! "api_version" <> cfg1 !! "api_version"))
  /\ registration
       (snd (create_client permissive_sdk OPENAI_AGENTS cfg1
               (snd (create_client permissive_sdk OPENAI_AGENTS cfg0 st0)))) <>
     registration (snd (create_client permissive_sdk OPENAI_AGENTS cfg0 st0)).
Proof.
  assert (H1 : create_client permissive_sdk OPENAI_AGENTS cfg0 st0 =
                 (Ok (PyRef 0),
                  snd (create_client permissive_sdk OPENAI_AGENTS cfg0 st0)))
    by (vm_compute; reflexivity).
  assert (H2 : create_client permissive_sdk OPENAI_AGENTS cfg1
                 (snd (create_client permissive_sdk OPENAI_AGENTS cfg0 st0)) =
                 (Ok (PyRef 1),
                  snd (create_client permissive_sdk OPENAI_AGENTS cfg1
                         (snd (create_client permissive_sdk OPENAI_AGENTS cfg0 st0)))))
    by (vm_compute; reflexivity).
  assert (Hd : cfg0 !! "azure_endpoint" <> cfg1 !! "azure_endpoint"
               \/ cfg0 !! "azure_ad_token_provider" <> cfg1 !! "azure_ad_token_provider"
               \/ cfg0 !! "api_version" <> cfg1 !! "api_version")
    by (left; vm_compute; discriminate).
  split; [repeat split; assumption|].
  exact (proj2 (proj2 (openai_agents_registration_repeated permissive_sdk st0))
           cfg0 cfg1 _ _ _ _ H1 H2 Hd).
Defined.

(** ** The model wrapper *)

(** C9.  [Model.from_azure_openai_for_autogen] translates the
    configuration and calls the Autogen constructor in one step; among the
    arguments the four capability flags [function_calling], [json_output],
    [vision] and [structured_output] are [True] whatever the configuration.
    When the constructor returns, the wrapper holds the configuration it
    was given, the client just built and the label "Autogen"; when it
    raises, no wrapper is made.  [get_client] returns the client held, and
    no method of the wrapper changes it. *)
Theorem from_azure_openai_for_autogen_spec (sdk : SDK) (config : ModelConfig)
    (st : state) :
  let kw := Model.chat_completion_kwargs config in
  Model.from_azure_openai_for_autogen sdk config st =
    match sdk_init sdk AzureOpenAIChatCompletionClient (environ st) kw with
    | Some e => (Raise e, st)
    | None =>
        (Ok (Model.__init__ config (PyRef (length (heap st))) "Autogen"),
         mkState (heap st ++ [Client AzureOpenAIChatCompletionClient kw])
           (agents st) (environ st))
    end
  /\ kw !! "model_capabilities" =
       Some (PyDict [ ("function_calling", PyBool true);
                      ("json_output", PyBool true);
                      ("vision", PyBool true);
                      ("structured_output", PyBool true) ])
  /\ kw !! "model" = Some (azure_model_name config)
  /\ kw !! "azure_endpoint" = Some (azure_endpoint config)
  /\ kw !! "api_version" = Some (azure_api_version config)
  /\ kw !! "azure_deployment" = Some (azure_deployment config)
  /\ kw !! "azure_ad_token_provider" = Some (azure_token_provider config)
  /\ kw !! "temperature" = Some (temperature config)
  /\ (forall m st',
        Model.from_azure_openai_for_autogen sdk config st = (Ok m, st') ->
        Model.config m = config
        /\ Model.framework m = "Autogen"
        /\ deref (heap st') (Model.client m) =
             Some (Client AzureOpenAIChatCompletionClient kw)
        /\ fst (Model.get_client m) = Model.client m)
  /\ (forall meth self, snd (Model.call meth self) = self).
Proof.
  cbn zeta.
  assert (Hrun : Model.from_azure_openai_for_autogen sdk config st =
            match sdk_init sdk AzureOpenAIChatCompletionClient (environ st)
                    (Model.chat_completion_kwargs config) with
            | Some e => (Raise e, st)
            | None =>
                (Ok (Model.__init__ config (PyRef (length (heap st))) "Autogen"),
                 mkState (heap st ++ [Client AzureOpenAIChatCompletionClient
                                        (Model.chat_completion_kwargs config)])
                   (agents st) (environ st))
            end).
  { unfold Model.from_azure_openai_for_autogen, bind, construct, ret.
    destruct (sdk_init sdk AzureOpenAIChatCompletionClient (environ st)
                (Model.chat_completion_kwargs config)); reflexivity. }
  split; [exact Hrun|].
  do 7 (split; [reflexivity|]).
  split.
  - intros m st' H. rewrite Hrun in H.
    destruct (sdk_init sdk AzureOpenAIChatCompletionClient (environ st)
                (Model.chat_completion_kwargs config)); inversion H; subst.
    cbn [Model.config Model.framework Model.client Model.get_client fst
         heap deref].
    repeat split. apply lookup_fresh.
  - intros [] self. reflexivity.
Qed.

Lemma from_azure_openai_for_autogen_spec_witness :
  Model.from_azure_openai_for_autogen permissive_sdk ModelConfig_default st0 =
    (Ok (Model.__init__ ModelConfig_default (PyRef 0) "Autogen"),
     snd (Model.from_azure_openai_for_autogen permissive_sdk
            ModelConfig_default st0))
  /\ Model.config (Model.__init__ ModelConfig_default (PyRef 0) "Autogen") =
       ModelConfig_default
  /\ fst (Model.get_client (Model.__init__ ModelConfig_default (PyRef 0) "Autogen")) =
       PyRef 0.
Proof.
  assert (H : Model.from_azure_openai_for_autogen permissive_sdk
                ModelConfig_default st0 =
              (Ok (Model.__init__ ModelConfig_default (PyRef 0) "Autogen"),
               snd (Model.from_azure_openai_for_autogen permissive_sdk
                      ModelConfig_default st0)))
    by (vm_compute; reflexivity).
  split; [exact H|].
  destruct (proj1 (proj2 (proj2 (proj2 (proj2 (proj2 (proj2 (proj2 (proj2
              (from_azure_openai_for_autogen_spec permissive_sdk
                 ModelConfig_default st0)))))))))
              _ _ H) as (Hc & _ & _ & Hg).
  split; [exact Hc | exact Hg].
Defined.

(** * Further properties of the code *)

(** ** Missing and surplus keys *)

(** X1.  The LangGraph routine subscripts the configuration six times, in
    the order of its dictionary literal.  The first of these keys that the
    configuration lacks is the one the [KeyError] names; the constructor is
    not reached and the state is untouched.  When none is lacking, the call
    is the constructor call. *)
Theorem langgraph_first_missing_key (sdk : SDK) (llm_config : kwargs)
    (st : state) :
  (forall k, first_missing llm_config langgraph_keys = Some k ->
             create_client sdk LANGGRAPH llm_config st = (Raise (KeyError k), st))
  /\ (first_missing llm_config langgraph_keys = None ->
      exists kw, create_client sdk LANGGRAPH llm_config st =
                   construct sdk AzureChatOpenAI kw st).
Proof.
  unfold first_missing, langgraph_keys. cbn [List.find create_client].
  unfold _create_langgraph_client, bind, getitem, ret, raise.
  split.
  - intros k H. repeat case_match; simplify_eq; reflexivity.
  - intros H. repeat case_match; simplify_eq. eexists. reflexivity.
Qed.

Lemma langgraph_first_missing_key_witness :
  first_missing cfg_no_temperature langgraph_keys = Some "temperature"
  /\ create_client strict_sdk LANGGRAPH cfg_no_temperature st0 =
       (Raise (KeyError "temperature"), st0).
Proof.
  assert (H : first_missing cfg_no_temperature langgraph_keys = Some "temperature")
    by (vm_compute; reflexivity).
  split; [exact H|].
  exact (proj1 (langgraph_first_missing_key strict_sdk cfg_no_temperature st0) _ H).
Defined.

(** X2.  The OpenAI Agents routine subscripts three keys before it does
    anything else.  The first one lacking is named by the [KeyError], and
    then nothing has happened: no client, no registration, no environment
    variable.  The deployment, the model name and the temperature may be
    absent altogether. *)
Theorem openai_agents_first_missing_key (sdk : SDK) (llm_config : kwargs)
    (st : state) :
  (forall k, first_missing llm_config openai_agents_keys = Some k ->
             create_client sdk OPENAI_AGENTS llm_config st =
               (Raise (KeyError k), st))
  /\ (forall e st',
        create_client sdk OPENAI_AGENTS llm_config st = (Raise e, st') ->
        exc_class e = "KeyError" ->
        e = KeyError "azure_endpoint" \/ e = KeyError "azure_ad_token_provider"
        \/ e = KeyError "api_version"
        \/ exists endpoint provider version,
             sdk_init sdk AsyncAzureOpenAI (environ st)
               (openai_agents_config endpoint provider version) = Some e).
Proof.
  split.
  - unfold first_missing, openai_agents_keys. cbn [List.find create_client].
    unfold _create_openai_agents_client, bind, getitem, ret, raise.
    intros k H. repeat case_match; simplify_eq; reflexivity.
  - intros e st' H Hcls. cbn [create_client] in H.
    destruct (llm_config !! "azure_endpoint") as [ep|] eqn:He.
    2:{ unfold _create_openai_agents_client, bind, getitem, raise in H.
        rewrite He in H. inversion H. auto. }
    destruct (llm_config !! "azure_ad_token_provider") as [tp|] eqn:Hp.
    2:{ unfold _create_openai_agents_client, bind, getitem, raise, ret in H.
        rewrite He, Hp in H. inversion H. auto. }
    destruct (llm_config !! "api_version") as [ver|] eqn:Hv.
    2:{ unfold _create_openai_agents_client, bind, getitem, raise, ret in H.
        rewrite He, Hp, Hv in H. inversion H. auto. }
    destruct (sdk_init sdk AsyncAzureOpenAI (environ st)
                (openai_agents_config ep tp ver)) as [e'|] eqn:Hi.
    + rewrite (_create_openai_agents_client_raises sdk llm_config st ep tp ver e')
        in H by assumption.
      inversion H; subst. right. right. right. eauto.
    + exfalso.
      unfold _create_openai_agents_client in H.
      rewrite (bind_ok _ _ st st ep) in H by now apply getitem_some.
      rewrite (bind_ok _ _ st st tp) in H by now apply getitem_some.
      rewrite (bind_ok _ _ st st ver) in H by now apply getitem_some.
      erewrite bind_ok in H by now apply construct_returns.
      unfold bind, set_default_openai_api, set_default_openai_client,
        set_tracing_disabled, environ_setitem, getitem, ret, raise in H.
      cbn in H. rewrite He, Hv in H.
      repeat case_match; simplify_eq; cbn in Hcls; discriminate.
Qed.

Lemma openai_agents_first_missing_key_witness :
  first_missing (delete "api_version" cfg0) openai_agents_keys = Some "api_version"
  /\ create_client strict_sdk OPENAI_AGENTS (delete "api_version" cfg0) st0 =
       (Raise (KeyError "api_version"), st0).
Proof.
  assert (H : first_missing (delete "api_version" cfg0) openai_agents_keys
              = Some "api_version") by (vm_compute; reflexivity).
  split; [exact H|].
  exact (proj1 (openai_agents_first_missing_key strict_sdk
                  (delete "api_version" cfg0) st0) _ H).
Defined.

Lemma not_in_langgraph_keys (k : string) :
  k ∉ langgraph_keys ->
  k <> "model" /\ k <> "temperature" /\ k <> "azure_deployment"
  /\ k <> "azure_endpoint" /\ k <> "api_version"
  /\ k <> "azure_ad_token_provider".
Proof. unfold langgraph_keys. intros H. repeat split; set_solver. Qed.

(** X3.  A key outside the six the LangGraph routine reads has no effect on
    it: setting or removing such a key changes neither the outcome nor the
    arguments the constructor receives.  The Autogen routine forwards every
    key, so the same surplus key does reach its constructor. *)
Theorem surplus_keys (sdk : SDK) (llm_config : kwargs) (k : string)
    (v : pyval) (st : state) :
  (k ∉ langgraph_keys ->
   create_client sdk LANGGRAPH (<[k := v]> llm_config) st =
     create_client sdk LANGGRAPH llm_config st
   /\ create_client sdk LANGGRAPH (delete k llm_config) st =
        create_client sdk LANGGRAPH llm_config st)
  /\ (forall c st',
        create_client sdk AUTOGEN (<[k := v]> llm_config) st = (Ok c, st') ->
        exists kw,
          deref (heap st') c = Some (Client AzureOpenAIChatCompletionClient kw)
          /\ kw !! k = Some v).
Proof.
  split.
  - intros Hk. apply not_in_langgraph_keys in Hk.
    destruct Hk as (H1 & H2 & H3 & H4 & H5 & H6).
    cbn [create_client]. unfold _create_langgraph_client, getitem.
    rewrite !lookup_insert_ne, !lookup_delete_ne by congruence.
    split; reflexivity.
  - intros c st' H. cbn [create_client] in H. unfold _create_autogen_client in H.
    destruct (construct_cases sdk AzureOpenAIChatCompletionClient
                (<[k := v]> llm_config) st)
      as [(e & _ & Hc)|(_ & Hc)]; rewrite Hc in H; inversion H; subst.
    eexists. cbn [deref heap]. split; [apply lookup_fresh|].
    apply lookup_insert_eq.
Qed.

Lemma surplus_keys_witness :
  ("model_capabilities" ∉ langgraph_keys)
  /\ create_client strict_sdk LANGGRAPH
       (<["model_capabilities" := Model.model_capabilities]> cfg0) st0 =
     create_client strict_sdk LANGGRAPH cfg0 st0.
Proof.
  assert (H : "model_capabilities" ∉ langgraph_keys)
    by (apply (bool_decide_unpack _); vm_compute; exact I).
  split; [exact H|].
  exact (proj1 (proj1 (surplus_keys strict_sdk cfg0 "model_capabilities"
                         Model.model_capabilities st0) H)).
Defined.

(** ** What an OpenAI Agents call leaves behind *)

(** After the constructor has returned, the routine is the three setters
    and the first assignment, all of which succeed, followed by the two
    assignments that depend on the configuration. *)
Lemma _create_openai_agents_client_tail (sdk : SDK) (llm_config : kwargs)
    (st : state) (endpoint provider version : pyval) :
  llm_config !! "azure_endpoint" = Some endpoint ->
  llm_config !! "azure_ad_token_provider" = Some provider ->
  llm_config !! "api_version" = Some version ->
  sdk_init sdk AsyncAzureOpenAI (environ st)
    (openai_agents_config endpoint provider version) = None ->
  _create_openai_agents_client sdk llm_config st =
    match environ_setitem "OPENAI_API_BASE" endpoint
            (mkState
               (heap st ++ [Client AsyncAzureOpenAI
                              (openai_agents_config endpoint provider version)])
               (mkAgents "chat_completions"
                  (Some (PyRef (length (heap st)), false)) true)
               (<["OPENAI_API_TYPE" := "azure"]> (environ st))) with
    | (Ok _, st2) =>
        match environ_setitem "OPENAI_API_VERSION" version st2 with
        | (Ok _, st3) => (Ok (PyRef (length (heap st))), st3)
        | (Raise e, st3) => (Raise e, st3)
        end
    | (Raise e, st2) => (Raise e, st2)
    end.
Proof.
  intros He Hp Hv Hi. unfold _create_openai_agents_client.
  rewrite (bind_ok _ _ st st endpoint) by now apply getitem_some.
  rewrite (bind_ok _ _ st st provider) by now apply getitem_some.
  rewrite (bind_ok _ _ st st version) by now apply getitem_some.
  erewrite bind_ok by now apply construct_returns.
  unfold bind at 1. unfold set_default_openai_api at 1.
  unfold bind at 1. unfold set_default_openai_client at 1.
  unfold bind at 1. unfold set_tracing_disabled at 1.
  unfold bind at 1. unfold environ_setitem at 1. cbn [has_nul]. cbn -[bind].
  erewrite bind_ok by (apply getitem_some; exact He).
  unfold bind at 1.
  destruct (environ_setitem "OPENAI_API_BASE" endpoint _) as [[[]|e] st2];
    [|reflexivity].
  erewrite bind_ok by (apply getitem_some; exact Hv).
  unfold bind, ret.
  destruct (environ_setitem "OPENAI_API_VERSION" version st2) as [[[]|e] st3];
    reflexivity.
Qed.

(** Why an assignment to [os.environ] is refused. *)
Lemma environ_setitem_refusal (k : string) (v : pyval) (st : state) :
  assignable v = None ->
  exists e,
    environ_setitem k v st = (Raise e, st)
    /\ ((exists s, v = PyStr s /\ e = ValueError "embedded null byte")
        \/ ((forall s, v <> PyStr s) /\ exc_class e = "TypeError")).
Proof.
  unfold assignable, environ_setitem. intros H.
  destruct v; try (eexists; split; [reflexivity|]; right;
                   split; [intros ?; discriminate | reflexivity]).
  destruct (has_nul s); [|discriminate].
  eexists. split; [reflexivity|]. left. eauto.
Qed.

(** X4.  Registration is not all-or-nothing.  When the constructor has
    returned but the endpoint of the configuration cannot be stored in
    [os.environ] (it is not a [str], which raises [TypeError], or it holds
    a NUL, which raises [ValueError]), [create_client] raises after the
    new client has been registered as the default, the default API pinned,
    tracing disabled and OPENAI_API_TYPE set; no handle is returned.  When
    the endpoint can be stored and the API version cannot, OPENAI_API_BASE
    has been set as well. *)
Theorem openai_agents_partial_registration (sdk : SDK) (llm_config : kwargs)
    (st : state) (endpoint provider version : pyval) :
  llm_config !! "azure_endpoint" = Some endpoint ->
  llm_config !! "azure_ad_token_provider" = Some provider ->
  llm_config !! "api_version" = Some version ->
  sdk_init sdk AsyncAzureOpenAI (environ st)
    (openai_agents_config endpoint provider version) = None ->
  (assignable endpoint = None ->
   exists e,
     create_client sdk OPENAI_AGENTS llm_config st =
       (Raise e,
        mkState
          (heap st ++ [Client AsyncAzureOpenAI
                         (openai_agents_config endpoint provider version)])
          (mkAgents "chat_completions"
             (Some (PyRef (length (heap st)), false)) true)
          (<["OPENAI_API_TYPE" := "azure"]> (environ st)))
     /\ ((exists s, endpoint = PyStr s /\ e = ValueError "embedded null byte")
         \/ ((forall s, endpoint <> PyStr s) /\ exc_class e = "TypeError")))
  /\ (forall ep,
        assignable endpoint = Some ep ->
        assignable version = None ->
        exists e,
          create_client sdk OPENAI_AGENTS llm_config st =
            (Raise e,
             mkState
               (heap st ++ [Client AsyncAzureOpenAI
                              (openai_agents_config endpoint provider version)])
               (mkAgents "chat_completions"
                  (Some (PyRef (length (heap st)), false)) true)
               (<["OPENAI_API_BASE" := ep]>
                  (<["OPENAI_API_TYPE" := "azure"]> (environ st))))
          /\ ((exists s, version = PyStr s /\ e = ValueError "embedded null byte")
              \/ ((forall s, version <> PyStr s) /\ exc_class e = "TypeError"))).
Proof.
  intros He Hp Hv Hi. cbn [create_client].
  rewrite (_create_openai_agents_client_tail sdk llm_config st
             endpoint provider version He Hp Hv Hi).
  split.
  - intros Ha.
    destruct (environ_setitem_refusal "OPENAI_API_BASE" endpoint
                (mkState
                   (heap st ++ [Client AsyncAzureOpenAI
                                  (openai_agents_config endpoint provider version)])
                   (mkAgents "chat_completions"
                      (Some (PyRef (length (heap st)), false)) true)
                   (<["OPENAI_API_TYPE" := "azure"]> (environ st))) Ha)
      as (e & Hr & Hcls).
    exists e. rewrite Hr. split; [reflexivity | exact Hcls].
  - intros ep Ha Hb.
    rewrite (environ_setitem_assignable "OPENAI_API_BASE" endpoint ep _ Ha).
    cbn [heap agents environ].
    destruct (environ_setitem_refusal "OPENAI_API_VERSION" version
                (mkState
                   (heap st ++ [Client AsyncAzureOpenAI
                                  (openai_agents_config endpoint provider version)])
                   (mkAgents "chat_completions"
                      (Some (PyRef (length (heap st)), false)) true)
                   (<["OPENAI_API_BASE" := ep]>
                      (<["OPENAI_API_TYPE" := "azure"]> (environ st)))) Hb)
      as (e & Hr & Hcls).
    exists e. rewrite Hr. split; [reflexivity | exact Hcls].
Qed.

Lemma openai_agents_partial_registration_witness :
  exists e,
    create_client permissive_sdk OPENAI_AGENTS cfg_none_endpoint st0 =
      (Raise e,
       mkState
         [Client AsyncAzureOpenAI
            (openai_agents_config PyNone (PyCallable "token_provider")
               (PyStr "2024-06-01"))]
         (mkAgents "chat_completions" (Some (PyRef 0, false)) true)
         (<["OPENAI_API_TYPE" := "azure"]> ∅))
    /\ ((exists s, PyNone = PyStr s /\ e = ValueError "embedded null byte")
        \/ ((forall s, PyNone <> PyStr s) /\ exc_class e = "TypeError")).
Proof.
  exact (proj1 (openai_agents_partial_registration permissive_sdk
                  cfg_none_endpoint st0 PyNone (PyCallable "token_provider")
                  (PyStr "2024-06-01") eq_refl eq_refl eq_refl eq_refl)
           eq_refl).
Defined.

(** X5.  [create_client] returns a handle for OpenAI Agents exactly when the
    three keys it reads are present, the endpoint and the API version are
    strings without a NUL, and the constructor accepts the three
    arguments. *)
Theorem openai_agents_returns_iff (sdk : SDK) (llm_config : kwargs) (st : state) :
  (exists c st', create_client sdk OPENAI_AGENTS llm_config st = (Ok c, st'))
  <->
  (exists ep provider ver,
     llm_config !! "azure_endpoint" = Some (PyStr ep)
     /\ llm_config !! "azure_ad_token_provider" = Some provider
     /\ llm_config !! "api_version" = Some (PyStr ver)
     /\ has_nul ep = false
     /\ has_nul ver = false
     /\ sdk_init sdk AsyncAzureOpenAI (environ st)
          (openai_agents_config (PyStr ep) provider (PyStr ver)) = None).
Proof.
  cbn [create_client]. split.
  - intros (c & st' & H).
    destruct (llm_config !! "azure_endpoint") as [endpoint|] eqn:He;
      [|destruct (_create_openai_agents_client_missing sdk llm_config st)
          as [k Hk]; [auto | congruence]].
    destruct (llm_config !! "azure_ad_token_provider") as [tp|] eqn:Hp;
      [|destruct (_create_openai_agents_client_missing sdk llm_config st)
          as [k Hk]; [auto | congruence]].
    destruct (llm_config !! "api_version") as [version|] eqn:Hv;
      [|destruct (_create_openai_agents_client_missing sdk llm_config st)
          as [k Hk]; [auto | congruence]].
    destruct (sdk_init sdk AsyncAzureOpenAI (environ st)
                (openai_agents_config endpoint tp version)) as [e|] eqn:Hi.
    + rewrite (_create_openai_agents_client_raises sdk llm_config st
                 endpoint tp version e) in H by assumption. discriminate.
    + destruct (_create_openai_agents_client_runs sdk llm_config st
                  endpoint tp version He Hp Hv Hi) as (r & Hr & Hok & _).
      rewrite Hr in H. inversion H; subst.
      destruct (Hok c eq_refl) as (_ & ep & ver & -> & -> & Hae & Hav).
      exists ep, tp, ver. cbn [assignable] in Hae, Hav.
      destruct (has_nul ep); [discriminate|].
      destruct (has_nul ver); [discriminate|].
      repeat split; assumption.
  - intros (ep & tp & ver & He & Hp & Hv & Hne & Hnv & Hi).
    destruct (_create_openai_agents_client_runs sdk llm_config st
                (PyStr ep) tp (PyStr ver) He Hp Hv Hi) as (r & Hr & _ & Hok).
    rewrite (Hok ep ver) in Hr.
    + eauto.
    + cbn [assignable]. now rewrite Hne.
    + cbn [assignable]. now rewrite Hnv.
Qed.

Lemma openai_agents_returns_iff_witness :
  exists c st', create_client strict_sdk OPENAI_AGENTS cfg0 st0 = (Ok c, st').
Proof.
  apply (proj2 (openai_agents_returns_iff strict_sdk cfg0 st0)).
  exists "https://a.example", (PyCallable "token_provider"), "2024-06-01".
  repeat split; vm_compute; reflexivity.
Defined.

Lemma mirrored_lookup_other (endpoint version : pyval)
    (env : gmap string string) (k : string) :
  k <> "OPENAI_API_TYPE" -> k <> "OPENAI_API_BASE" -> k <> "OPENAI_API_VERSION" ->
  mirrored endpoint version env !! k = env !! k.
Proof.
  intros H1 H2 H3. unfold mirrored.
  destruct (assignable endpoint); [destruct (assignable version)|];
    rewrite ?lookup_insert_ne by congruence; reflexivity.
Qed.

Lemma mirrored_keeps (endpoint version : pyval) (env : gmap string string)
    (k : string) :
  is_Some (env !! k) -> is_Some (mirrored endpoint version env !! k).
Proof.
  intros H. unfold mirrored.
  destruct (assignable endpoint); [destruct (assignable version)|];
    rewrite !lookup_insert; repeat case_decide; eauto.
Qed.

(** X6.  Whatever its outcome, an OpenAI Agents call changes no environment
    variable other than OPENAI_API_TYPE, OPENAI_API_BASE and
    OPENAI_API_VERSION, and unsets none at all. *)
Theorem openai_agents_environ_frame (sdk : SDK) (llm_config : kwargs)
    (st st' : state) (r : result pyval) :
  create_client sdk OPENAI_AGENTS llm_config st = (r, st') ->
  (forall k, k <> "OPENAI_API_TYPE" -> k <> "OPENAI_API_BASE" ->
             k <> "OPENAI_API_VERSION" ->
             environ st' !! k = environ st !! k)
  /\ (forall k, is_Some (environ st !! k) -> is_Some (environ st' !! k)).
Proof.
  cbn [create_client]. intros H.
  destruct (_create_openai_agents_client_state sdk llm_config st st' r H)
    as [->|(ep & tp & ver & _ & _ & _ & ->)]; [split; auto|].
  cbn [environ]. split.
  - intros k H1 H2 H3. now apply mirrored_lookup_other.
  - intros k Hk. now apply mirrored_keeps.
Qed.

Lemma openai_agents_environ_frame_witness :
  environ (snd (create_client strict_sdk OPENAI_AGENTS cfg0
                  (mkState [] (mkAgents "responses" None false)
                     (<["AZURE_ENDPOINT" := "https://a.example"]> ∅))))
    !! "AZURE_ENDPOINT" = Some "https://a.example".
Proof.
  rewrite (proj1 (openai_agents_environ_frame strict_sdk cfg0
                    (mkState [] (mkAgents "responses" None false)
                       (<["AZURE_ENDPOINT" := "https://a.example"]> ∅))
                    _ _ (surjective_pairing _))
             "AZURE_ENDPOINT") by discriminate.
  reflexivity.
Defined.

(** ** The heap and its references *)

(** Every call of [create_client] leaves the state alone or allocates one
    client at the end of the heap; only OpenAI Agents may rewrite the
    registry, and then to the client just allocated. *)
Lemma create_client_shape (sdk : SDK) (fw : Framework) (llm_config : kwargs)
    (st st' : state) (r : result pyval) :
  create_client sdk fw llm_config st = (r, st') ->
  st' = st
  \/ exists cls kw,
       framework_class fw = Some cls
       /\ heap st' = (heap st ++ [Client cls kw])%list
       /\ (agents st' = agents st
           \/ agents st' = mkAgents "chat_completions"
                             (Some (PyRef (length (heap st)), false)) true).
Proof.
  destruct fw as [| | |repr]; cbn [create_client framework_class]; intros H.
  - unfold _create_autogen_client in H.
    destruct (construct_cases sdk AzureOpenAIChatCompletionClient llm_config st)
      as [(e & _ & Hc)|(_ & Hc)]; rewrite Hc in H; inversion H; subst; auto.
    right. eexists _, _. cbn. auto.
  - unfold _create_langgraph_client, bind, getitem, ret, raise, construct in H.
    repeat case_match; simplify_eq/=; auto.
    right. eexists _, _. cbn. auto.
  - destruct (_create_openai_agents_client_state sdk llm_config st st' r H)
      as [->|(ep & tp & ver & _ & _ & _ & ->)]; auto.
    right. eexists _, _. cbn. auto.
  - unfold raise in H. inversion H; auto.
Qed.

(** A call of [bind_tools_for_framework] leaves the state alone or
    allocates one binding around a live chat model. *)
Lemma bind_tools_for_framework_shape (sdk : SDK) (client : pyval)
    (fw : Framework) (tools : list pyval) (p : bool) (st st' : state)
    (r : result pyval) :
  bind_tools_for_framework sdk client fw tools p st = (r, st') ->
  st' = st
  \/ exists b kw,
       heap st !! b = Some (Client AzureChatOpenAI kw)
       /\ st' = mkState (heap st ++ [Binding b tools p]) (agents st) (environ st).
Proof.
  destruct fw as [| | |repr]; cbn [bind_tools_for_framework]; unfold ret;
    intros H; try (inversion H; auto; fail).
  unfold bind_tools in H.
  destruct (chat_model_of (heap st) client) as [[b kw]|] eqn:Hm.
  - assert (Hb : heap st !! b = Some (Client AzureChatOpenAI kw)).
    { unfold chat_model_of in Hm. repeat case_match; simplify_eq; assumption. }
    destruct (sdk_convert_tools sdk kw tools); inversion H; subst; auto.
    right. eauto.
  - inversion H; auto.
Qed.

(** X7.  Neither [create_client] nor [bind_tools_for_framework] ever changes
    or frees an object that exists: whatever the framework, the arguments
    and the outcome, every reference keeps the object it had, and at most
    one object is added. *)
Theorem existing_objects_are_kept (sdk : SDK) (fw : Framework) (st : state) :
  (forall llm_config r st',
     create_client sdk fw llm_config st = (r, st') ->
     (forall l o, heap st !! l = Some o -> heap st' !! l = Some o)
     /\ length (heap st') <= S (length (heap st)))
  /\ (forall client tools p r st',
        bind_tools_for_framework sdk client fw tools p st = (r, st') ->
        (forall l o, heap st !! l = Some o -> heap st' !! l = Some o)
        /\ length (heap st') <= S (length (heap st))).
Proof.
  split.
  - intros llm_config r st' H.
    destruct (create_client_shape sdk fw llm_config st st' r H)
      as [->|(cls & kw & _ & -> & _)]; [split; [auto | lia]|].
    split; [intros l o Ho; now apply lookup_old|].
    rewrite length_app. cbn. lia.
  - intros client tools p r st' H.
    destruct (bind_tools_for_framework_shape sdk client fw tools p st st' r H)
      as [->|(b & kw & _ & ->)]; [split; [auto | lia]|].
    cbn [heap]. split; [intros l o Ho; now apply lookup_old|].
    rewrite length_app. cbn. lia.
Qed.

Lemma existing_objects_are_kept_witness :
  heap (snd (create_client strict_sdk OPENAI_AGENTS cfg1
               (snd (create_client strict_sdk AUTOGEN cfg0 st0)))) !! 0 =
    Some (Client AzureOpenAIChatCompletionClient cfg0).
Proof.
  apply (proj1 (proj1 (existing_objects_are_kept strict_sdk OPENAI_AGENTS
                         (snd (create_client strict_sdk AUTOGEN cfg0 st0)))
                  cfg1 _ _ (surjective_pairing _))).
  vm_compute. reflexivity.
Defined.

Lemma registry_ok_grow (h new : list obj) (a : agents_config)
    (e e' : gmap string string) :
  registry_ok (mkState h a e) -> registry_ok (mkState (h ++ new) a e').
Proof.
  unfold registry_ok. cbn [heap agents]. intros H c u Hc.
  destruct (H c u Hc) as [o Ho]. exists o.
  destruct c; try discriminate. cbn [deref] in *.
  now apply lookup_app_l_Some.
Qed.

Lemma bindings_ok_grow (h : list obj) (o : obj) (a a' : agents_config)
    (e e' : gmap string string) :
  bindings_ok (mkState h a e) ->
  (forall b ts p, o = Binding b ts p ->
                  exists kw, h !! b = Some (Client AzureChatOpenAI kw)) ->
  bindings_ok (mkState (h ++ [o]) a' e').
Proof.
  unfold bindings_ok. cbn [heap]. intros H Ho l b ts p Hl.
  apply lookup_app_Some in Hl. destruct Hl as [Hl|[Hge Hl]].
  - destruct (H l b ts p Hl) as [kw Hkw]. exists kw. now apply lookup_app_l_Some.
  - destruct (l - length h) as [|n] eqn:En; cbn in Hl; [|discriminate].
    inversion Hl; subst o.
    destruct (Ho b ts p eq_refl) as [kw Hkw]. exists kw.
    now apply lookup_app_l_Some.
Qed.

(** X8.  Reachable states have no dangling references.  If the registered
    default client is a live object and every binding wraps a live LangChain
    chat model, the same holds after any call of [create_client] or
    [bind_tools_for_framework], with any arguments and whether the call
    returns or raises. *)
Theorem wf_preserved (sdk : SDK) (fw : Framework) (st : state) :
  wf st ->
  (forall llm_config r st',
     create_client sdk fw llm_config st = (r, st') -> wf st')
  /\ (forall client tools p r st',
        bind_tools_for_framework sdk client fw tools p st = (r, st') -> wf st').
Proof.
  intros [Hr Hb]. destruct st as [h a e]. split.
  - intros llm_config r st' H.
    destruct (create_client_shape sdk fw llm_config _ st' r H)
      as [->|(cls & kw & _ & Hh & Ha)]; [split; assumption|].
    destruct st' as [h' a' e']. cbn [heap agents] in Hh, Ha. subst h'. split.
    + destruct Ha as [->| ->].
      * now apply registry_ok_grow with (e := e).
      * intros c u Hc. cbn [agents default_openai_client] in Hc.
        inversion Hc; subst. cbn [deref heap]. rewrite lookup_fresh. eauto.
    + apply bindings_ok_grow with (a := a) (e := e); [assumption|].
      intros b ts p Ho. discriminate.
  - intros client tools p r st' H.
    destruct (bind_tools_for_framework_shape sdk client fw tools p _ st' r H)
      as [->|(b & kw & Hbl & ->)]; [split; assumption|].
    cbn [heap agents environ] in *. split.
    + now apply registry_ok_grow with (e := e).
    + apply bindings_ok_grow with (a := a) (e := e); [assumption|].
      intros b' ts' p' Ho. inversion Ho; subst. eauto.
Qed.

Lemma wf_preserved_witness :
  wf (snd (create_client strict_sdk OPENAI_AGENTS cfg0 st0)).
Proof.
  apply (proj1 (wf_preserved strict_sdk OPENAI_AGENTS st0
                  ltac:(split; [intros c u H; discriminate
                               | intros l b ts p H; discriminate]))
           cfg0 _ _ (surjective_pairing _)).
Defined.

(** What a returned client holds depends on the framework and the
    configuration only, not on the state the call started from. *)
Lemma create_client_contents (sdk : SDK) (fw : Framework) (llm_config : kwargs)
    (sa sa' sb sb' : state) (ca cb : pyval) :
  create_client sdk fw llm_config sa = (Ok ca, sa') ->
  create_client sdk fw llm_config sb = (Ok cb, sb') ->
  deref (heap sa') ca = deref (heap sb') cb
  /\ is_Some (deref (heap sa') ca).
Proof.
  destruct fw as [| | |repr]; cbn [create_client]; intros Ha Hb.
  - unfold _create_autogen_client in Ha, Hb.
    destruct (construct_cases sdk AzureOpenAIChatCompletionClient llm_config sa)
      as [(e & _ & Hc)|(_ & Hc)]; rewrite Hc in Ha; inversion Ha; subst.
    destruct (construct_cases sdk AzureOpenAIChatCompletionClient llm_config sb)
      as [(e & _ & Hc')|(_ & Hc')]; rewrite Hc' in Hb; inversion Hb; subst.
    cbn [deref heap]. rewrite !lookup_fresh. eauto.
  - unfold _create_langgraph_client, bind, getitem, ret, raise, construct
      in Ha, Hb.
    repeat case_match; simplify_eq/=. rewrite !lookup_fresh. eauto.
  - destruct (_create_openai_agents_client_ok sdk llm_config sa sa' ca Ha)
      as (ep & tp & ver & He & Hp & Hv & _ & -> & ->).
    destruct (_create_openai_agents_client_ok sdk llm_config sb sb' cb Hb)
      as (ep' & tp' & ver' & He' & Hp' & Hv' & _ & -> & ->).
    cbn [deref heap]. rewrite !lookup_fresh.
    assert (ep' = ep) as -> by congruence.
    assert (tp' = tp) as -> by congruence.
    assert (ver' = ver) as -> by congruence. eauto.
  - unfold raise in Ha. discriminate.
Qed.

(** X9.  Two calls of [create_client] with the same framework and the same
    configuration, one after the other, return two different references to
    two live objects of equal contents; the second call leaves the first
    object as it was. *)
Theorem repeated_calls_give_independent_handles (sdk : SDK) (fw : Framework)
    (llm_config : kwargs) (st st1 st2 : state) (c1 c2 : pyval) :
  create_client sdk fw llm_config st = (Ok c1, st1) ->
  create_client sdk fw llm_config st1 = (Ok c2, st2) ->
  c1 <> c2
  /\ is_Some (deref (heap st2) c1)
  /\ deref (heap st2) c1 = deref (heap st1) c1
  /\ deref (heap st2) c2 = deref (heap st2) c1.
Proof.
  intros H1 H2.
  destruct (create_client_returns_fresh sdk fw llm_config st st1 c1 H1)
    as (cls & kw & _ & -> & Hh1).
  destruct (create_client_returns_fresh sdk fw llm_config st1 st2 c2 H2)
    as (cls' & kw' & _ & -> & Hh2).
  destruct (create_client_contents sdk fw llm_config st st1 st1 st2 _ _ H1 H2)
    as [Heq [o Ho]].
  assert (Hkeep : deref (heap st2) (PyRef (length (heap st))) =
                  deref (heap st1) (PyRef (length (heap st)))).
  { cbn [deref] in *. rewrite Hh2. rewrite Ho. now apply lookup_app_l_Some. }
  repeat split.
  - intros E. inversion E as [El]. rewrite Hh1, length_app in El. cbn in El. lia.
  - rewrite Hkeep. eauto.
  - exact Hkeep.
  - rewrite Hkeep. symmetry. exact Heq.
Qed.

Lemma repeated_calls_give_independent_handles_witness :
  PyRef 0 <> PyRef 1
  /\ deref (heap (snd (create_client strict_sdk LANGGRAPH cfg0
                         (snd (create_client strict_sdk LANGGRAPH cfg0 st0)))))
       (PyRef 1) =
     deref (heap (snd (create_client strict_sdk LANGGRAPH cfg0
                         (snd (create_client strict_sdk LANGGRAPH cfg0 st0)))))
       (PyRef 0).
Proof.
  destruct (repeated_calls_give_independent_handles strict_sdk LANGGRAPH cfg0
              st0 (snd (create_client strict_sdk LANGGRAPH cfg0 st0))
              (snd (create_client strict_sdk LANGGRAPH cfg0
                      (snd (create_client strict_sdk LANGGRAPH cfg0 st0))))
              (PyRef 0) (PyRef 1) eq_refl eq_refl)
    as (Hne & _ & _ & Heq).
  split; assumption.
Defined.

(** ** Creating a client, then binding tools *)

(** X10.  A handle returned by [create_client] can be handed to
    [bind_tools_for_framework] with the same framework: for Autogen and
    OpenAI Agents the handle comes back and nothing changes; for LangGraph,
    when the SDK accepts the tools, a new handle comes back that binds the
    client just created to exactly these tools and this flag.  A handle of
    one of the other two frameworks handed in as a LangGraph client raises
    [AttributeError], since those clients have no [bind_tools], and nothing
    changes. *)
Theorem create_then_bind (sdk : SDK) (fw : Framework) (llm_config : kwargs)
    (st st1 : state) (c : pyval) (tools : list pyval) (p : bool) :
  create_client sdk fw llm_config st = (Ok c, st1) ->
  (fw <> LANGGRAPH ->
   bind_tools_for_framework sdk c fw tools p st1 = (Ok c, st1)
   /\ exists cls,
        framework_class fw = Some cls
        /\ bind_tools_for_framework sdk c LANGGRAPH tools p st1 =
             (Raise (AttributeError
                       ("'" +:+ class_name cls +:+
                        "' object has no attribute 'bind_tools'")), st1))
  /\ (fw = LANGGRAPH ->
      (forall kw, sdk_convert_tools sdk kw tools = None) ->
      exists l,
        c = PyRef l
        /\ bind_tools_for_framework sdk c fw tools p st1 =
             (Ok (PyRef (S l)),
              mkState (heap st1 ++ [Binding l tools p]) (agents st1) (environ st1))).
Proof.
  intros H.
  destruct (create_client_returns_fresh sdk fw llm_config st st1 c H)
    as (cls & kw & Hcls & -> & Hh).
  split.
  - intros Hfw. split.
    + destruct fw; try contradiction; reflexivity.
    + exists cls. split; [assumption|].
      cbn [bind_tools_for_framework]. unfold bind_tools, chat_model_of.
      rewrite Hh, lookup_fresh.
      destruct fw; try contradiction; try discriminate;
        cbn [framework_class] in Hcls; inversion Hcls; subst cls;
        unfold no_bind_tools; cbn [type_name]; rewrite lookup_fresh; reflexivity.
  - intros -> Hconv. cbn [framework_class] in Hcls. inversion Hcls; subst cls.
    exists (length (heap st)). split; [reflexivity|].
    cbn [bind_tools_for_framework]. unfold bind_tools, chat_model_of.
    rewrite Hh, lookup_fresh, Hconv.
    rewrite length_app. cbn [length]. rewrite Nat.add_1_r. reflexivity.
Qed.

Lemma create_then_bind_witness :
  exists cls,
    framework_class AUTOGEN = Some cls
    /\ bind_tools_for_framework strict_sdk (PyRef 0) LANGGRAPH
         [PyCallable "t1"] true (snd (create_client strict_sdk AUTOGEN cfg0 st0)) =
       (Raise (AttributeError
                 ("'" +:+ class_name cls +:+
                  "' object has no attribute 'bind_tools'")),
        snd (create_client strict_sdk AUTOGEN cfg0 st0)).
Proof.
  exact (proj2 (proj1 (create_then_bind strict_sdk AUTOGEN cfg0 st0
                         (snd (create_client strict_sdk AUTOGEN cfg0 st0))
                         (PyRef 0) [PyCallable "t1"] true eq_refl)
                  ltac:(discriminate))).
Defined.

(** X11.  What OpenAI Agents has registered stays registered: provided the
    registered client is a live object, no call of [create_client] for
    another framework and no call of [bind_tools_for_framework] changes the
    registration, whether it returns or raises. *)
Theorem registration_is_undisturbed (sdk : SDK) (fw : Framework) (st : state) :
  registry_ok st ->
  (forall llm_config r st',
     fw <> OPENAI_AGENTS ->
     create_client sdk fw llm_config st = (r, st') ->
     registration st' = registration st)
  /\ (forall client tools p r st',
        bind_tools_for_framework sdk client fw tools p st = (r, st') ->
        registration st' = registration st).
Proof.
  intros Hr.
  assert (Hgrow : forall new a e,
            a = agents st -> e = environ st ->
            registration (mkState (heap st ++ new) a e) = registration st).
  { intros new a e -> ->. unfold registration. cbn [heap agents environ].
    f_equal. f_equal. f_equal.
    destruct (default_openai_client (agents st)) as [[c u]|] eqn:Hc;
      [|reflexivity].
    cbn. destruct (Hr c u Hc) as [o Ho].
    destruct c; try discriminate. cbn [deref] in *.
    rewrite Ho. f_equal. f_equal. now apply lookup_app_l_Some. }
  split.
  - intros llm_config r st' Hfw H.
    destruct fw as [| | |repr]; cbn [create_client] in H.
    + unfold _create_autogen_client in H.
      destruct (construct_cases sdk AzureOpenAIChatCompletionClient llm_config st)
        as [(e & _ & Hc)|(_ & Hc)]; rewrite Hc in H; inversion H; subst;
        [reflexivity|]. now apply Hgrow.
    + unfold _create_langgraph_client, bind, getitem, ret, raise, construct in H.
      repeat case_match; simplify_eq/=; try reflexivity. now apply Hgrow.
    + contradiction.
    + unfold raise in H. inversion H; reflexivity.
  - intros client tools p r st' H.
    destruct (bind_tools_for_framework_shape sdk client fw tools p st st' r H)
      as [->|(b & kw & _ & ->)]; [reflexivity|]. now apply Hgrow.
Qed.

Lemma registration_is_undisturbed_witness :
  registration
    (snd (create_client strict_sdk LANGGRAPH cfg1
            (snd (create_client strict_sdk OPENAI_AGENTS cfg0 st0)))) =
  registration (snd (create_client strict_sdk OPENAI_AGENTS cfg0 st0)).
Proof.
  apply (proj1 (registration_is_undisturbed strict_sdk LANGGRAPH
                  (snd (create_client strict_sdk OPENAI_AGENTS cfg0 st0))
                  ltac:(intros c u H; vm_compute in H; inversion H;
                        vm_compute; eauto))
           cfg1 _ _ ltac:(discriminate) (surjective_pairing _)).
Defined.

(** ** The wrapper's arguments and the factory *)

(** X12.  The keyword arguments [Model.from_azure_openai_for_autogen]
    builds are a configuration the factory accepts for every framework: no
    key that a routine reads is missing.  The wrapper is the factory's
    Autogen route followed by [__init__]; handed to the LangGraph route, the
    same dictionary gives the constructor the six renamed fields of the
    [ModelConfig] and drops [model_capabilities]. *)
Theorem wrapper_arguments_fit_the_factory (sdk : SDK) (config : ModelConfig)
    (st : state) :
  first_missing (Model.chat_completion_kwargs config) langgraph_keys = None
  /\ first_missing (Model.chat_completion_kwargs config) openai_agents_keys = None
  /\ Model.from_azure_openai_for_autogen sdk config st =
       bind (create_client sdk AUTOGEN (Model.chat_completion_kwargs config))
         (fun c => ret (Model.__init__ config c "Autogen")) st
  /\ create_client sdk LANGGRAPH (Model.chat_completion_kwargs config) st =
       construct sdk AzureChatOpenAI
         (langgraph_config (azure_model_name config) (temperature config)
            (azure_deployment config) (azure_endpoint config)
            (azure_api_version config) (azure_token_provider config)) st
  /\ langgraph_config (azure_model_name config) (temperature config)
       (azure_deployment config) (azure_endpoint config)
       (azure_api_version config) (azure_token_provider config)
       !! "model_capabilities" = None.
Proof.
  split; [reflexivity|]. split; [reflexivity|]. split; [reflexivity|].
  split; [|reflexivity].
  cbn [create_client]. now apply _create_langgraph_client_reads.
Qed.

(** ** The environment set-up *)

(** X13.  [EnvironmentSetup()] never raises on an unset variable: it loads
    the [.env] file, which is its only effect on the state, and keeps what
    [os.getenv] finds afterwards, [None] for a variable that is not set.
    [get_azure_config] hands back those values under the keys [endpoint],
    [deployment], [model_name] and [api_version], next to the bearer-token
    provider for the scope "api://trapi/.default". *)
Theorem environment_setup_reads_environment (ext : Collaborators) (st : state) :
  exists self,
    EnvironmentSetup.__init__ ext st =
      (Ok self, mkState (heap st) (agents st) (load_dotenv ext (environ st)))
    /\ EnvironmentSetup.get_azure_config self !! "endpoint" =
         Some (environ_get (load_dotenv ext (environ st)) "AZURE_ENDPOINT")
    /\ EnvironmentSetup.get_azure_config self !! "deployment" =
         Some (environ_get (load_dotenv ext (environ st)) "AZURE_DEPLOYMENT")
    /\ EnvironmentSetup.get_azure_config self !! "model_name" =
         Some (environ_get (load_dotenv ext (environ st)) "AZURE_MODEL_NAME")
    /\ EnvironmentSetup.get_azure_config self !! "api_version" =
         Some (environ_get (load_dotenv ext (environ st)) "AZURE_API_VERSION")
    /\ EnvironmentSetup.get_azure_config self !! "token_provider" =
         Some (get_bearer_token_provider ext (AzureCliCredential ext)
                 "api://trapi/.default")
    /\ EnvironmentSetup.get_framework self =
         environ_get (load_dotenv ext (environ st)) "FRAMEWORK"
    /\ EnvironmentSetup.get_exp_type self =
         environ_get (load_dotenv ext (environ st)) "EXP_TYPE"
    /\ (forall k v name,
          (k, name) ∈ [("endpoint", "AZURE_ENDPOINT");
                       ("deployment", "AZURE_DEPLOYMENT");
                       ("model_name", "AZURE_MODEL_NAME");
                       ("api_version", "AZURE_API_VERSION")] ->
          EnvironmentSetup.get_azure_config self !! k = Some v ->
          (v = PyNone <-> load_dotenv ext (environ st) !! name = None)).
Proof.
  eexists. split; [reflexivity|].
  do 7 (split; [reflexivity|]).
  intros k v name Hin Hk.
  assert (Hv : v = environ_get (load_dotenv ext (environ st)) name).
  { repeat (apply elem_of_cons in Hin; destruct Hin as [Hin|Hin];
            [inversion Hin; subst; vm_compute in Hk; inversion Hk; reflexivity|]).
    apply elem_of_nil in Hin. contradiction. }
  subst v. unfold environ_get.
  destruct (load_dotenv ext (environ st) !! name); split; congruence.
Qed.

Lemma environment_setup_reads_environment_witness :
  exists self,
    EnvironmentSetup.__init__ sample_collaborators st0 =
      (Ok self,
       mkState (heap st0) (agents st0)
         (load_dotenv sample_collaborators (environ st0)))
    /\ EnvironmentSetup.get_azure_config self !! "endpoint" =
         Some (PyStr "https://a.example")
    /\ EnvironmentSetup.get_azure_config self !! "deployment" = Some PyNone.
Proof.
  destruct (environment_setup_reads_environment sample_collaborators st0)
    as (self & Hinit & He & Hd & _).
  exists self. split; [exact Hinit|]. split.
  - rewrite He. vm_compute. reflexivity.
  - rewrite Hd. vm_compute. reflexivity.
Defined.

(** X14.  The dictionary [get_azure_config] returns is keyed [endpoint],
    [deployment], [model_name], [api_version], [token_provider], none of
    which but [api_version] is a key [create_client] looks for.  Handed to
    the factory as it is, it raises [KeyError('model')] for LangGraph and
    [KeyError('azure_endpoint')] for OpenAI Agents, with the state
    untouched; for Autogen it reaches the constructor with no [model] and
    no [azure_endpoint] argument. *)
Theorem azure_config_must_be_rekeyed (sdk : SDK) (self : EnvironmentSetup.t)
    (st : state) :
  create_client sdk LANGGRAPH (EnvironmentSetup.get_azure_config self) st =
    (Raise (KeyError "model"), st)
  /\ create_client sdk OPENAI_AGENTS (EnvironmentSetup.get_azure_config self) st =
       (Raise (KeyError "azure_endpoint"), st)
  /\ create_client sdk AUTOGEN (EnvironmentSetup.get_azure_config self) st =
       construct sdk AzureOpenAIChatCompletionClient
         (EnvironmentSetup.get_azure_config self) st
  /\ EnvironmentSetup.get_azure_config self !! "model" = None
  /\ EnvironmentSetup.get_azure_config self !! "azure_endpoint" = None
  /\ EnvironmentSetup.get_azure_config self !! "azure_deployment" = None
  /\ EnvironmentSetup.get_azure_config self !! "azure_ad_token_provider" = None.
Proof.
  assert (Hm : EnvironmentSetup.get_azure_config self !! "model" = None)
    by reflexivity.
  assert (He : EnvironmentSetup.get_azure_config self !! "azure_endpoint" = None)
    by reflexivity.
  split.
  { cbn [create_client]. unfold _create_langgraph_client.
    apply bind_raise. now apply getitem_none. }
  split.
  { cbn [create_client]. unfold _create_openai_agents_client.
    apply bind_raise. now apply getitem_none. }
  repeat split; reflexivity.
Qed.
